(** * ply.py: point-cloud comparison and height filtering

    A shallow embedding of [ply.py].  The script loads two PLY files,
    prints them, compares size / range / invalid values, and shows the
    points whose z coordinate exceeds a threshold.

    - numpy [float64] values are IEEE-754 binary64 numbers, modelled by
      the Standard Library's [spec_float] (with its NaN, infinities and
      signed zeros); an [N x 3] array is a list of rows.
    - Exceptions and the console are modelled by a writer/exception monad
      [M]: a computation yields the trace of external effects it performed
      and either a value or the exception it raised.
    - The external libraries (os, pyntcloud, open3d) are an environment
      record [Env]; every call to them is recorded in the trace. *)

From Stdlib Require Import String List Bool Arith ZArith Lia.
From Stdlib Require Import Floats.SpecFloat.
Import ListNotations.
Local Open Scope string_scope.
Local Open Scope list_scope.

(* ===================================================================== *)
(** ** Floating point values *)

Module F64.

(** A numpy [float64]. *)
Definition float64 : Type := spec_float.

Definition prec : Z := 53.
Definition emax : Z := 1024.

(** Well-formed binary64 values (canonical mantissa, bounded exponent). *)
Definition is_float64 (f : float64) : bool := valid_binary prec emax f.

Definition zero : float64 := S754_zero false.
Definition one : float64 := Eval cbv in SFone prec emax.
Definition two : float64 := Eval cbv in SFadd prec emax one one.
Definition neg_one : float64 := Eval cbv in SFopp one.
Definition neg_two : float64 := Eval cbv in SFopp two.
Definition nan : float64 := S754_nan.
Definition inf : float64 := S754_infinity false.
Definition neg_inf : float64 := S754_infinity true.

(** Python / numpy comparison operators on floats. *)
Definition lt (a b : float64) : bool := SFltb a b.
Definition le (a b : float64) : bool := SFleb a b.
Definition gt (a b : float64) : bool := SFltb b a.

(** [np.isnan] and [np.isinf] on one element. *)
Definition isnan (a : float64) : bool :=
  match a with S754_nan => true | _ => false end.

Definition isinf (a : float64) : bool :=
  match a with S754_infinity _ => true | _ => false end.

(** [np.minimum] / [np.maximum] on two scalars: the first operand is
    returned when it compares [<=] (resp. [>=]) or is NaN, the second
    otherwise, so that a NaN on either side propagates. *)
Definition minimum (a b : float64) : float64 :=
  if le a b || isnan a then a else b.

Definition maximum (a b : float64) : float64 :=
  if le b a || isnan a then a else b.

End F64.

Import F64.

(* ===================================================================== *)
(** ** Exceptions and results *)

(** A raised Python exception (a subclass of [Exception]): its class name
    and its message. *)
Inductive Exception : Type :=
| Raised (cls : string) (message : string).

Inductive Result (A : Type) : Type :=
| Ok (a : A)
| Raise (e : Exception).
Arguments Ok {A} a.
Arguments Raise {A} e.

(** Raised by a reduction with the ufunc [name] over an empty array. *)
Definition ValueError (name : string) : Exception :=
  Raised "ValueError"
    ("zero-size array to reduction operation " ++ name
     ++ " which has no identity").

Definition IndexError : Exception :=
  Raised "IndexError"
    "boolean index did not match indexed array along axis 0".

Definition rbind {A B} (r : Result A) (k : A -> Result B) : Result B :=
  match r with
  | Ok a => k a
  | Raise e => Raise e
  end.

(* ===================================================================== *)
(** ** numpy arrays *)

(** One row of an [N x 3] array: columns 0, 1, 2. *)
Record Vec3 : Type := mkVec3 { vx : float64; vy : float64; vz : float64 }.

(** An [N x 3] array of float64. *)
Definition Array3 : Type := list Vec3.

Module np.

(** [a[:, 2] > t]: the boolean mask, one entry per row. *)
Definition col2_gt (a : Array3) (t : float64) : list bool :=
  map (fun p => gt (vz p) t) a.

(** Rows of [a] at which the mask holds, for a mask as long as [a]. *)
Fixpoint select {A} (a : list A) (mask : list bool) : list A :=
  match a, mask with
  | x :: a', b :: mask' =>
      if b then x :: select a' mask' else select a' mask'
  | _, _ => []
  end.

(** [a[mask]], boolean-mask indexing along axis 0.  numpy raises
    [IndexError] when the mask's length differs from the array's. *)
Definition bool_index {A} (a : list A) (mask : list bool)
  : Result (list A) :=
  if Nat.eqb (length mask) (length a) then Ok (select a mask)
  else Raise IndexError.

(** [ufunc.reduce] over a one-dimensional array for a ufunc without
    identity: [ValueError] on an empty array, otherwise a left fold
    starting from the first element. *)
Definition reduce (name : string) (f : float64 -> float64 -> float64)
  (a : list float64) : Result float64 :=
  match a with
  | [] => Raise (ValueError name)
  | x :: rest => Ok (fold_left f rest x)
  end.

(** Reduction of an [N x 3] array along axis 0: one reduction per
    column. *)
Definition reduce_axis0 (name : string)
  (f : float64 -> float64 -> float64) (a : Array3) : Result Vec3 :=
  rbind (reduce name f (map vx a)) (fun x =>
  rbind (reduce name f (map vy a)) (fun y =>
  rbind (reduce name f (map vz a)) (fun z =>
  Ok (mkVec3 x y z)))).

(** [np.min(a, axis=0)] and [np.max(a, axis=0)]. *)
Definition min_axis0 (a : Array3) : Result Vec3 :=
  reduce_axis0 "minimum" minimum a.
Definition max_axis0 (a : Array3) : Result Vec3 :=
  reduce_axis0 "maximum" maximum a.

(** [np.isnan(a).any()] and [np.isinf(a).any()]. *)
Definition isnan_any (a : Array3) : bool :=
  existsb (fun p => isnan (vx p) || isnan (vy p) || isnan (vz p)) a.

Definition isinf_any (a : Array3) : bool :=
  existsb (fun p => isinf (vx p) || isinf (vy p) || isinf (vz p)) a.

End np.

(* ===================================================================== *)
(** ** External libraries: pyntcloud and open3d values *)

(** A loaded [PyntCloud].  Its constructor insists on the columns x, y, z,
    so [cloud.points[['x','y','z']].values] is always an [N x 3] array;
    further columns are not used by the script. *)
Record PyntCloud : Type := mkPyntCloud { xyz_values : Array3 }.

Module o3d.

(** [open3d.geometry.PointCloud]: three vectors of 3-vectors.  A freshly
    constructed cloud has all three empty. *)
Record PointCloud : Type := mkPointCloud {
  points : Array3;
  normals : Array3;
  colors : Array3
}.

Definition new : PointCloud := mkPointCloud [] [] [].

Definition set_points (c : PointCloud) (p : Array3) : PointCloud :=
  mkPointCloud p (normals c) (colors c).

Definition set_colors (c : PointCloud) (k : Array3) : PointCloud :=
  mkPointCloud (points c) (normals c) k.

(** [PointCloud.has_colors()]: there are points and exactly one color
    per point. *)
Definition has_colors (c : PointCloud) : bool :=
  negb (Nat.eqb (length (points c)) 0)
  && Nat.eqb (length (colors c)) (length (points c)).

End o3d.

(* ===================================================================== *)
(** ** Effects *)

Inductive Level : Type := INFO | ERROR.

(** An f-string: literal text and interpolated values, in order. *)
Inductive Fragment : Type :=
| Lit (s : string)
| VStr (s : string)
| VNat (n : nat)
| VBool (b : bool)
| VFloat (x : float64)
| VVec (v : Vec3)
| VExc (e : Exception).

Definition Message : Type := list Fragment.

(** What [print_ply_info] prints. *)
Inductive Printed : Type :=
| PHead (rows : Array3)
| PColumns
| PFrame (rows : Array3)
| PValues (rows : Array3)
| PDescribe (rows : Array3).

(** Calls that leave the program. *)
Inductive Event : Type :=
| PathExists (path : string)
| FromFile (path : string)
| ReadPointCloud (path : string)
| Log (lvl : Level) (msg : Message)
| Stdout (what : Printed)
| DrawGeometries (geoms : list o3d.PointCloud).

(** The outside world. *)
Record Env : Type := mkEnv {
  os_path_exists : string -> bool;
  PyntCloud_from_file : string -> Result PyntCloud;
  o3d_read_point_cloud : string -> Result o3d.PointCloud;
  o3d_draw_geometries : list o3d.PointCloud -> Result unit
}.

(** Trace of events performed, and the outcome. *)
Definition M (A : Type) : Type := (list Event * Result A)%type.

Definition ret {A} (a : A) : M A := ([], Ok a).

Definition bind {A B} (m : M A) (k : A -> M B) : M B :=
  match m with
  | (t, Ok a) => let (t', r) := k a in (t ++ t', r)
  | (t, Raise e) => (t, Raise e)
  end.

(** An effect: record the event, then yield the callee's result. *)
Definition call {A} (ev : Event) (r : Result A) : M A := ([ev], r).

(** A pure step that may raise. *)
Definition lift {A} (r : Result A) : M A := ([], r).

(** [try: body except Exception as e: handler e]. *)
Definition try_except {A} (body : M A) (handler : Exception -> M A) : M A :=
  match body with
  | (t, Raise e) => let (t', r) := handler e in (t ++ t', r)
  | done => done
  end.

Definition trace {A} (m : M A) : list Event := fst m.
Definition outcome {A} (m : M A) : Result A := snd m.

Declare Scope prog_scope.
Delimit Scope prog_scope with prog.
Notation "x <- m ;; k" := (bind m (fun x => k))
  (at level 61, m at next level, right associativity) : prog_scope.
Notation "m ;; k" := (bind m (fun _ => k))
  (at level 61, right associativity) : prog_scope.
Local Open Scope prog_scope.

Definition logging_info (msg : Message) : M unit := call (Log INFO msg) (Ok tt).
Definition logging_error (msg : Message) : M unit := call (Log ERROR msg) (Ok tt).
Definition print (what : Printed) : M unit := call (Stdout what) (Ok tt).

Definition exists_ (env : Env) (path : string) : M bool :=
  call (PathExists path) (Ok (os_path_exists env path)).

Definition from_file (env : Env) (path : string) : M PyntCloud :=
  call (FromFile path) (PyntCloud_from_file env path).

Definition read_point_cloud (env : Env) (path : string) : M o3d.PointCloud :=
  call (ReadPointCloud path) (o3d_read_point_cloud env path).

Definition draw_geometries (env : Env) (geoms : list o3d.PointCloud)
  : M unit :=
  call (DrawGeometries geoms) (o3d_draw_geometries env geoms).

(* ===================================================================== *)
(** ** The script *)

(** [print_ply_info(file)] *)
Definition print_ply_info (env : Env) (file : string) : M unit :=
  try_except
    (logging_info [Lit "Reading file: "; VStr file] ;;
     cloud <- from_file env file ;;
     logging_info [Lit "PLY file header information:"] ;;
     print (PHead (firstn 5 (xyz_values cloud))) ;;
     logging_info [Lit "Columns in the point cloud:"] ;;
     print PColumns ;;
     logging_info [Lit "All point cloud data:"] ;;
     print (PFrame (xyz_values cloud)) ;;
     logging_info [Lit "Vertex coordinates (x, y, z):"] ;;
     let vertices := xyz_values cloud in
     print (PValues vertices) ;;
     logging_info [Lit "Point cloud statistics:"] ;;
     print (PDescribe (xyz_values cloud)))
    (fun e => logging_error [Lit "Error reading "; VStr file; Lit ": "; VExc e]).

(** The body of [compare_point_clouds] once both files are loaded
    (lines 51-68): sizes, ranges, invalid values of the two arrays. *)
Definition compare (points1 points2 : Array3) : M unit :=
  logging_info [Lit "Point cloud 1 size: "; VNat (length points1)] ;;
  logging_info [Lit "Point cloud 2 size: "; VNat (length points2)] ;;
  min1 <- lift (np.min_axis0 points1) ;;
  max1 <- lift (np.max_axis0 points1) ;;
  min2 <- lift (np.min_axis0 points2) ;;
  max2 <- lift (np.max_axis0 points2) ;;
  logging_info [Lit "Point cloud 1 range - min: "; VVec min1;
                Lit ", max: "; VVec max1] ;;
  logging_info [Lit "Point cloud 2 range - min: "; VVec min2;
                Lit ", max: "; VVec max2] ;;
  let invalid1 := np.isnan_any points1 || np.isinf_any points1 in
  let invalid2 := np.isnan_any points2 || np.isinf_any points2 in
  logging_info [Lit "Point cloud 1 has invalid points: "; VBool invalid1] ;;
  logging_info [Lit "Point cloud 2 has invalid points: "; VBool invalid2].

(** [compare_point_clouds(file1, file2)]: no [try] around the loads. *)
Definition compare_point_clouds (env : Env) (file1 file2 : string) : M unit :=
  cloud1 <- from_file env file1 ;;
  cloud2 <- from_file env file2 ;;
  let points1 := xyz_values cloud1 in
  let points2 := xyz_values cloud2 in
  compare points1 points2.

(** The filtering step of [visualize_point_cloud] (lines 79-92): the new
    cloud holding the points with [z > z_threshold], and their colors
    when the source has colors. *)
Definition filter_by_height (cloud : o3d.PointCloud) (z_threshold : float64)
  : Result o3d.PointCloud :=
  let points := o3d.points cloud in
  rbind (np.bool_index points (np.col2_gt points z_threshold))
    (fun filtered_points =>
  let filtered_cloud := o3d.set_points o3d.new filtered_points in
  if o3d.has_colors cloud then
    let colors := o3d.colors cloud in
    rbind (np.bool_index colors (np.col2_gt points z_threshold))
      (fun filtered_colors =>
    Ok (o3d.set_colors filtered_cloud filtered_colors))
  else Ok filtered_cloud).

(** The default of the parameter [z_threshold=0]. *)
Definition default_z_threshold : float64 := zero.

(** [visualize_point_cloud(file, z_threshold)] *)
Definition visualize_point_cloud (env : Env) (file : string)
  (z_threshold : float64) : M unit :=
  try_except
    (cloud <- read_point_cloud env file ;;
     let points := o3d.points cloud in
     filtered_cloud <- lift (filter_by_height cloud z_threshold) ;;
     let filtered_points := o3d.points filtered_cloud in
     logging_info [Lit "Visualizing point cloud: "; VStr file;
                   Lit " (only points with z > "; VFloat z_threshold;
                   Lit ")"] ;;
     logging_info [Lit "Original points: "; VNat (length points);
                   Lit ", Filtered points: ";
                   VNat (length filtered_points)] ;;
     draw_geometries env [filtered_cloud])
    (fun e =>
       logging_error [Lit "Error visualizing "; VStr file; Lit ": "; VExc e]).

(** [not os.path.exists(file1) or not os.path.exists(file2)]: the second
    operand is evaluated only when the first is false. *)
Definition some_file_missing (env : Env) (file1 file2 : string) : M bool :=
  e1 <- exists_ env file1 ;;
  if negb e1 then ret true
  else (e2 <- exists_ env file2 ;; ret (negb e2)).

(** [main(file1, file2)] *)
Definition main (env : Env) (file1 file2 : string) : M unit :=
  missing <- some_file_missing env file1 file2 ;;
  if missing then
    logging_error [Lit "One or both files do not exist."]
  else
    (logging_info [Lit "Printing PLY file information..."] ;;
     print_ply_info env file1 ;;
     print_ply_info env file2 ;;
     logging_info [Lit "Comparing point clouds..."] ;;
     compare_point_clouds env file1 file2 ;;
     logging_info [Lit "Visualizing point clouds (only z > 5)..."] ;;
     visualize_point_cloud env file1 default_z_threshold ;;
     visualize_point_cloud env file2 default_z_threshold).

(* ===================================================================== *)
(** ** Vocabulary of the statements *)

(** Componentwise [a <= b] on rows. *)
Definition vec_le (a b : Vec3) : bool :=
  le (vx a) (vx b) && le (vy a) (vy b) && le (vz a) (vz b).

(** The coordinates of a row. *)
Definition coords (p : Vec3) : list float64 := [vx p; vy p; vz p].

(** Some coordinate of some point of the array is NaN or infinite. *)
Definition has_invalid_coordinate (a : Array3) : Prop :=
  exists p c, In p a /\ In c (coords p) /\ (isnan c = true \/ isinf c = true).

(** The three axes, i.e. the columns of an [N x 3] array. *)
Inductive Axis : Type := AxisX | AxisY | AxisZ.

Definition coord (ax : Axis) (p : Vec3) : float64 :=
  match ax with AxisX => vx p | AxisY => vy p | AxisZ => vz p end.

(** No point of the array has a NaN on axis [ax]. *)
Definition axis_nan_free (ax : Axis) (a : Array3) : Prop :=
  forall p, In p a -> isnan (coord ax p) = false.

(** No coordinate of the array is NaN. *)
Definition nan_free (a : Array3) : Prop := forall ax, axis_nan_free ax a.

(** The loader was called somewhere in the trace. *)
Definition is_load (ev : Event) : bool :=
  match ev with
  | FromFile _ | ReadPointCloud _ => true
  | _ => false
  end.

Definition invokes_loader (t : list Event) : bool := existsb is_load t.

(** [p] occurs in [s] as a substring. *)
Fixpoint is_infix (p s : string) : bool :=
  String.prefix p s ||
  match s with
  | EmptyString => false
  | String _ s' => is_infix p s'
  end.

(** The text [p] shows up in a fragment of a message. *)
Definition mentions (p : string) (f : Fragment) : bool :=
  match f with
  | Lit s | VStr s => is_infix p s
  | VExc (Raised _ m) => is_infix p m
  | _ => false
  end.

(** Every missing path among [paths] is named by some logged error. *)
Definition reports_missing (env : Env) (paths : list string)
  (t : list Event) : Prop :=
  forall p, In p paths -> os_path_exists env p = false ->
    exists msg, In (Log ERROR msg) t /\ existsb (mentions p) msg = true.

(** The run got as far as the visualization of some file. *)
Definition is_visualization (ev : Event) : bool :=
  match ev with
  | ReadPointCloud _ | DrawGeometries _ => true
  | _ => false
  end.

Definition reaches_visualization (t : list Event) : bool :=
  existsb is_visualization t.

(** The positions paired with their colors, row by row. *)
Definition colored_points (c : o3d.PointCloud) : list (Vec3 * Vec3) :=
  combine (o3d.points c) (o3d.colors c).

(** The height predicate of the filter. *)
Definition above (z_threshold : float64) (p : Vec3) : bool :=
  gt (vz p) z_threshold.

(** *** The comparison report, read back from the log *)

Definition find_map {A B} (f : A -> option B) : list A -> option B :=
  fix go l :=
    match l with
    | [] => None
    | x :: l' => match f x with Some b => Some b | None => go l' end
    end.

Definition size_entry (label : string) (ev : Event) : option nat :=
  match ev with
  | Log INFO [Lit s; VNat n] => if String.eqb s label then Some n else None
  | _ => None
  end.

Definition range_entry (label : string) (ev : Event) : option (Vec3 * Vec3) :=
  match ev with
  | Log INFO [Lit s; VVec lo; Lit ", max: "; VVec hi] =>
      if String.eqb s label then Some (lo, hi) else None
  | _ => None
  end.

Definition invalid_entry (label : string) (ev : Event) : option bool :=
  match ev with
  | Log INFO [Lit s; VBool b] => if String.eqb s label then Some b else None
  | _ => None
  end.

(** What a run of the comparison told the log about the two clouds; a
    field is [None] when the run never logged it. *)
Record ComparisonReport : Type := mkReport {
  size1 : option nat;
  size2 : option nat;
  extent1 : option (Vec3 * Vec3);
  extent2 : option (Vec3 * Vec3);
  invalid1 : option bool;
  invalid2 : option bool
}.

Definition report (t : list Event) : ComparisonReport :=
  mkReport
    (find_map (size_entry "Point cloud 1 size: ") t)
    (find_map (size_entry "Point cloud 2 size: ") t)
    (find_map (range_entry "Point cloud 1 range - min: ") t)
    (find_map (range_entry "Point cloud 2 range - min: ") t)
    (find_map (invalid_entry "Point cloud 1 has invalid points: ") t)
    (find_map (invalid_entry "Point cloud 2 has invalid points: ") t).

(** [lo <= p <= hi] on axis [ax] for every point of the array. *)
Definition axis_bounds (ax : Axis) (a : Array3) (ext : Vec3 * Vec3) : Prop :=
  forall p, In p a ->
    le (coord ax (fst ext)) (coord ax p) = true
    /\ le (coord ax p) (coord ax (snd ext)) = true.

(** [lo <= p <= hi] componentwise for every point of the array. *)
Definition bounds (a : Array3) (ext : Vec3 * Vec3) : Prop :=
  forall p, In p a -> vec_le (fst ext) p = true /\ vec_le p (snd ext) = true.

(** *** Sample data *)

Module Sample.

Definition at_z (z : float64) : Vec3 := mkVec3 zero zero z.

Definition red : Vec3 := mkVec3 one zero zero.
Definition green : Vec3 := mkVec3 zero one zero.
Definition blue : Vec3 := mkVec3 zero zero one.

(** Points at z = -1, 0, 1. *)
Definition boundary_points : Array3 := [at_z neg_one; at_z zero; at_z one].

Definition boundary_cloud : o3d.PointCloud :=
  o3d.mkPointCloud boundary_points [] [].

Definition colored_cloud : o3d.PointCloud :=
  o3d.mkPointCloud boundary_points [] [red; green; blue].

(** Five points with z in -2 .. 2, and three points at z = 0. *)
Definition cloudA : Array3 :=
  [at_z neg_two; at_z neg_one; at_z zero; at_z one; at_z two].
Definition cloudB : Array3 := [at_z zero; at_z zero; at_z zero].

(** One infinite coordinate among finite points; one NaN coordinate. *)
Definition inf_cloud : Array3 := [at_z one; mkVec3 zero inf zero; at_z two].
Definition nan_cloud : Array3 := [at_z one; mkVec3 nan zero zero].

Definition file1 : string := "zhuzi1.ply".
Definition file2 : string := "pointcloud-unity-total.ply".

Definition parse_error : Exception :=
  Raised "ValueError" "Unsupported file format".

(** Both files are there and load. *)
Definition env_ok : Env :=
  mkEnv (fun _ => true)
        (fun f => Ok (mkPyntCloud (if String.eqb f file1 then cloudA else cloudB)))
        (fun f => Ok (o3d.mkPointCloud
                        (if String.eqb f file1 then cloudA else cloudB) [] []))
        (fun _ => Ok tt).

(** Only the first file is there. *)
Definition env_second_missing : Env :=
  mkEnv (fun f => String.eqb f file1)
        (PyntCloud_from_file env_ok)
        (o3d_read_point_cloud env_ok)
        (o3d_draw_geometries env_ok).

(** Both files are there; pyntcloud cannot parse the first one. *)
Definition env_first_corrupt : Env :=
  mkEnv (fun _ => true)
        (fun f => if String.eqb f file1 then Raise parse_error
                  else PyntCloud_from_file env_ok f)
        (o3d_read_point_cloud env_ok)
        (o3d_draw_geometries env_ok).

(** Both files load; the first one holds no vertex. *)
Definition env_first_empty : Env :=
  mkEnv (fun _ => true)
        (fun f => Ok (mkPyntCloud (if String.eqb f file1 then [] else cloudB)))
        (o3d_read_point_cloud env_ok)
        (o3d_draw_geometries env_ok).

End Sample.

(** *** Further vocabulary *)

(** The loader calls of a run, in order. *)
Definition loads (t : list Event) : list Event := filter is_load t.

(** [np.isfinite] on one element. *)
Definition isfinite (a : float64) : bool := negb (isnan a) && negb (isinf a).

(** The report with the roles of the two clouds exchanged. *)
Definition swap_report (r : ComparisonReport) : ComparisonReport :=
  mkReport (size2 r) (size1 r) (extent2 r) (extent1 r)
           (invalid2 r) (invalid1 r).

(** The log line of [visualize_point_cloud] with the two counts. *)
Definition counts_line (original filtered : nat) : Event :=
  Log INFO [Lit "Original points: "; VNat original;
            Lit ", Filtered points: "; VNat filtered].

(** The log line of [visualize_point_cloud] naming file and threshold. *)
Definition visualizing_line (file : string) (z_threshold : float64) : Event :=
  Log INFO [Lit "Visualizing point cloud: "; VStr file;
            Lit " (only points with z > "; VFloat z_threshold; Lit ")"].

Module Scenario.

(** No display: every call of the viewer fails. *)
Definition no_display : Exception :=
  Raised "RuntimeError" "Failed to create window".

Definition env_no_display : Env :=
  mkEnv (fun _ => true)
        (PyntCloud_from_file Sample.env_ok)
        (o3d_read_point_cloud Sample.env_ok)
        (fun _ => Raise no_display).

(** open3d cannot read any file; pyntcloud can. *)
Definition read_error : Exception :=
  Raised "RuntimeError" "Read PLY failed".

Definition env_o3d_unreadable : Env :=
  mkEnv (fun _ => true)
        (PyntCloud_from_file Sample.env_ok)
        (fun _ => Raise read_error)
        (o3d_draw_geometries Sample.env_ok).

(** pyntcloud cannot parse the second file. *)
Definition env_second_corrupt : Env :=
  mkEnv (fun _ => true)
        (fun f => if String.eqb f Sample.file2 then Raise Sample.parse_error
                  else PyntCloud_from_file Sample.env_ok f)
        (o3d_read_point_cloud Sample.env_ok)
        (o3d_draw_geometries Sample.env_ok).

(** A colored cloud with z = -1, 0, 1, 2. *)
Definition four_colored : o3d.PointCloud :=
  o3d.mkPointCloud
    [Sample.at_z neg_one; Sample.at_z zero; Sample.at_z one; Sample.at_z two]
    []
    [Sample.red; Sample.green; Sample.blue; Sample.red].

End Scenario.

(* ===================================================================== *)
(** ** Order facts on float64 *)

Section FloatOrder.

Local Open Scope Z_scope.

Local Ltac split_compares :=
  repeat match goal with
  | H : context [Z.compare ?a ?b] |- _ => destruct (Z.compare_spec a b)
  | |- context [Z.compare ?a ?b] => destruct (Z.compare_spec a b)
  | H : context [Pos.compare ?a ?b] |- _ => destruct (Pos.compare_spec a b)
  | |- context [Pos.compare ?a ?b] => destruct (Pos.compare_spec a b)
  end.

Local Ltac order_cases :=
  unfold le, SFleb, SFcompare;
  repeat match goal with
  | x : float64 |- _ => destruct x as [[|]|[|]| |[|] ? ?]
  end;
  simpl; intros; try reflexivity; try discriminate;
  change (Pos.compare_cont Eq) with Pos.compare in *;
  split_compares; simpl in *;
  try reflexivity; try discriminate; try lia.

Lemma le_refl (a : float64) : isnan a = false -> le a a = true.
Proof. order_cases. Qed.

Lemma le_total (a b : float64) :
  isnan a = false -> isnan b = false -> le a b = false -> le b a = true.
Proof. order_cases. Qed.

Lemma le_trans (a b c : float64) :
  le a b = true -> le b c = true -> le a c = true.
Proof. order_cases. Qed.

Lemma le_not_nan (a b : float64) :
  le a b = true -> isnan a = false /\ isnan b = false.
Proof. order_cases; split; reflexivity. Qed.

End FloatOrder.

(* ===================================================================== *)
(** ** numpy reductions *)

Section Reductions.

Lemma minimum_lower (a b : float64) :
  isnan a = false -> isnan b = false ->
  isnan (minimum a b) = false
  /\ le (minimum a b) a = true /\ le (minimum a b) b = true.
Proof.
  intros Ha Hb. unfold minimum.
  destruct (le a b) eqn:E; simpl.
  - auto using le_refl.
  - rewrite Ha. auto using le_refl, le_total.
Qed.

Lemma maximum_upper (a b : float64) :
  isnan a = false -> isnan b = false ->
  isnan (maximum a b) = false
  /\ le a (maximum a b) = true /\ le b (maximum a b) = true.
Proof.
  intros Ha Hb. unfold maximum.
  destruct (le b a) eqn:E; simpl.
  - auto using le_refl.
  - rewrite Ha. auto using le_refl, le_total.
Qed.

(** A NaN anywhere makes the minimum NaN. *)
Lemma minimum_nan_l (b : float64) : minimum nan b = nan.
Proof. reflexivity. Qed.

Lemma minimum_nan_r (a : float64) : minimum a nan = nan.
Proof. destruct a as [[|]|[|]| |[|] ? ?]; reflexivity. Qed.

Lemma fold_minimum_lower (rest : list float64) :
  forall acc,
    isnan acc = false ->
    (forall x, In x rest -> isnan x = false) ->
    isnan (fold_left minimum rest acc) = false
    /\ le (fold_left minimum rest acc) acc = true
    /\ (forall x, In x rest -> le (fold_left minimum rest acc) x = true).
Proof.
  induction rest as [|y rest IH]; intros acc Hacc Hrest; simpl.
  - repeat split; auto using le_refl; intros x [].
  - destruct (minimum_lower acc y Hacc (Hrest y (or_introl eq_refl)))
      as (Hn & Ha & Hy).
    destruct (IH (minimum acc y) Hn
                (fun x Hx => Hrest x (or_intror Hx))) as (Hn' & Hm & Hall).
    repeat split; [exact Hn' | eauto using le_trans |].
    intros x [<- | Hx]; eauto using le_trans.
Qed.

Lemma fold_maximum_upper (rest : list float64) :
  forall acc,
    isnan acc = false ->
    (forall x, In x rest -> isnan x = false) ->
    isnan (fold_left maximum rest acc) = false
    /\ le acc (fold_left maximum rest acc) = true
    /\ (forall x, In x rest -> le x (fold_left maximum rest acc) = true).
Proof.
  induction rest as [|y rest IH]; intros acc Hacc Hrest; simpl.
  - repeat split; auto using le_refl; intros x [].
  - destruct (maximum_upper acc y Hacc (Hrest y (or_introl eq_refl)))
      as (Hn & Ha & Hy).
    destruct (IH (maximum acc y) Hn
                (fun x Hx => Hrest x (or_intror Hx))) as (Hn' & Hm & Hall).
    repeat split; [exact Hn' | eauto using le_trans |].
    intros x [<- | Hx]; eauto using le_trans.
Qed.

(** One column of a non-empty NaN-free array: the reduction is below
    (above) every entry of the column. *)
Lemma column_lower (proj : Vec3 -> float64) (p : Vec3) (a : Array3) :
  (forall q, In q (p :: a) -> isnan (proj q) = false) ->
  forall q, In q (p :: a) ->
    le (fold_left minimum (map proj a) (proj p)) (proj q) = true.
Proof.
  intros Hn q Hq.
  destruct (fold_minimum_lower (map proj a) (proj p)) as (_ & Hp & Ha).
  - apply Hn; left; reflexivity.
  - intros x Hx. apply in_map_iff in Hx as (r & <- & Hr).
    apply Hn; right; exact Hr.
  - destruct Hq as [<- | Hq]; [exact Hp |].
    apply Ha, in_map; exact Hq.
Qed.

Lemma column_upper (proj : Vec3 -> float64) (p : Vec3) (a : Array3) :
  (forall q, In q (p :: a) -> isnan (proj q) = false) ->
  forall q, In q (p :: a) ->
    le (proj q) (fold_left maximum (map proj a) (proj p)) = true.
Proof.
  intros Hn q Hq.
  destruct (fold_maximum_upper (map proj a) (proj p)) as (_ & Hp & Ha).
  - apply Hn; left; reflexivity.
  - intros x Hx. apply in_map_iff in Hx as (r & <- & Hr).
    apply Hn; right; exact Hr.
  - destruct Hq as [<- | Hq]; [exact Hp |].
    apply Ha, in_map; exact Hq.
Qed.

Lemma reduce_axis0_nonempty name f (a : Array3) :
  a <> [] -> exists v, np.reduce_axis0 name f a = Ok v.
Proof.
  destruct a as [|p a]; [congruence | intros _].
  eexists; reflexivity.
Qed.

Lemma reduce_axis0_empty name f :
  np.reduce_axis0 name f [] = Raise (ValueError name).
Proof. reflexivity. Qed.

(** On an array without NaN on an axis, [np.min] and [np.max] along
    axis 0 bound every row on that axis. *)
Lemma min_max_axis0_bounds (a : Array3) (lo hi : Vec3) (ax : Axis) :
  axis_nan_free ax a ->
  np.min_axis0 a = Ok lo -> np.max_axis0 a = Ok hi ->
  axis_bounds ax a (lo, hi).
Proof.
  intros Hn Hlo Hhi. destruct a as [|p a]; [discriminate |].
  injection Hlo as <-. injection Hhi as <-.
  intros q Hq. simpl fst; simpl snd.
  destruct ax; cbn [coord vx vy vz]; split;
    (apply column_lower || apply column_upper); assumption.
Qed.

(** Comparisons with NaN are false, so bounds on an axis leave no room
    for a NaN on it. *)
Lemma axis_bounds_nan_free (a : Array3) ext (ax : Axis) :
  axis_bounds ax a ext -> axis_nan_free ax a.
Proof.
  intros Hb p Hp. destruct (Hb p Hp) as [H _].
  apply le_not_nan in H as [_ H]. exact H.
Qed.

Lemma bounds_all_axes (a : Array3) ext :
  bounds a ext <-> forall ax, axis_bounds ax a ext.
Proof.
  unfold bounds, axis_bounds, vec_le. split.
  - intros H ax p Hp. destruct (H p Hp) as [Hlo Hhi].
    apply andb_true_iff in Hlo as [Hlo Hlz], Hhi as [Hhi Hhz].
    apply andb_true_iff in Hlo as [Hlx Hly], Hhi as [Hhx Hhy].
    destruct ax; simpl; auto.
  - intros H p Hp.
    destruct (H AxisX p Hp) as [Hlx Hhx], (H AxisY p Hp) as [Hly Hhy],
      (H AxisZ p Hp) as [Hlz Hhz]. simpl in *.
    rewrite Hlx, Hly, Hlz, Hhx, Hhy, Hhz. split; reflexivity.
Qed.

Lemma invalid_flag_iff (a : Array3) :
  np.isnan_any a || np.isinf_any a = true <-> has_invalid_coordinate a.
Proof.
  unfold np.isnan_any, np.isinf_any, has_invalid_coordinate, coords.
  rewrite orb_true_iff, !existsb_exists. split.
  - intros [(p & Hp & H) | (p & Hp & H)];
      apply orb_true_iff in H as [H | H];
      try apply orb_true_iff in H as [H | H];
      exists p; eexists; (split; [exact Hp |]); simpl; eauto 6.
  - intros (p & c & Hp & Hc & [H | H]); [left | right]; exists p;
      (split; [exact Hp |]);
      simpl in Hc; destruct Hc as [<- | [<- | [<- | []]]];
      rewrite H; simpl; rewrite ?orb_true_r; reflexivity.
Qed.

End Reductions.

(* ===================================================================== *)
(** ** Boolean-mask indexing *)

Section Masks.

Context {A B : Type}.
Variable keep : A -> bool.

Lemma select_mask_filter (a : list A) :
  np.select a (map keep a) = filter keep a.
Proof.
  induction a as [|x a IH]; simpl; [reflexivity |].
  destruct (keep x); rewrite IH; reflexivity.
Qed.

(** Selecting from a second array with the mask of the first picks the
    companions of the rows kept in the first. *)
Lemma select_companions (a : list A) :
  forall k : list B,
    length k = length a ->
    combine (filter keep a) (np.select k (map keep a))
    = filter (fun pc => keep (fst pc)) (combine a k).
Proof.
  induction a as [|x a IH]; intros [|c k] Hlen; simpl in *;
    try discriminate; try reflexivity.
  injection Hlen as Hlen.
  destruct (keep x); simpl; rewrite IH by exact Hlen; reflexivity.
Qed.

Lemma select_length (a : list A) :
  forall k : list B,
    length k = length a ->
    length (np.select k (map keep a)) = length (filter keep a).
Proof.
  induction a as [|x a IH]; intros [|c k] Hlen; simpl in *;
    try discriminate; try reflexivity.
  injection Hlen as Hlen.
  destruct (keep x); simpl; rewrite IH by exact Hlen; reflexivity.
Qed.

Lemma select_all_kept (a : list A) :
  forall k : list B,
    length k = length a ->
    (forall x, In x a -> keep x = true) ->
    np.select k (map keep a) = k.
Proof.
  induction a as [|x a IH]; intros [|c k] Hlen Hall; simpl in *;
    try discriminate; try reflexivity.
  injection Hlen as Hlen.
  rewrite (Hall x (or_introl eq_refl)), IH; auto.
Qed.

Lemma select_none_kept (a : list A) :
  forall k : list B,
    (forall x, In x a -> keep x = false) ->
    np.select k (map keep a) = [].
Proof.
  induction a as [|x a IH]; intros [|c k] Hall; simpl in *;
    try reflexivity.
  rewrite (Hall x (or_introl eq_refl)), IH; auto.
Qed.

Lemma filter_none_kept (a : list A) :
  (forall x, In x a -> keep x = false) -> filter keep a = [].
Proof.
  induction a as [|x a IH]; intros Hall; simpl in *; [reflexivity |].
  rewrite (Hall x (or_introl eq_refl)), IH; auto.
Qed.

Lemma filter_kept (a : list A) x : In x (filter keep a) -> keep x = true.
Proof. intros H. apply filter_In in H as [_ H]. exact H. Qed.

Lemma filter_again (a : list A) : filter keep (filter keep a) = filter keep a.
Proof.
  induction a as [|x a IH]; simpl; [reflexivity |].
  destruct (keep x) eqn:E; simpl; rewrite ?E, IH; reflexivity.
Qed.

End Masks.

Section Filter.

Variable cloud : o3d.PointCloud.
Variable z_threshold : float64.

Lemma bool_index_own_mask :
  np.bool_index (o3d.points cloud)
    (np.col2_gt (o3d.points cloud) z_threshold)
  = Ok (filter (above z_threshold) (o3d.points cloud)).
Proof.
  unfold np.bool_index, np.col2_gt.
  rewrite length_map, Nat.eqb_refl.
  f_equal. apply (select_mask_filter (above z_threshold)).
Qed.

Lemma has_colors_aligned :
  o3d.has_colors cloud = true ->
  length (o3d.colors cloud) = length (o3d.points cloud).
Proof.
  unfold o3d.has_colors. intros H.
  apply andb_true_iff in H as [_ H]. apply Nat.eqb_eq in H. exact H.
Qed.

(** The filtering step never raises; this is the cloud it builds. *)
Lemma filter_by_height_eq :
  filter_by_height cloud z_threshold
  = Ok (o3d.mkPointCloud
          (filter (above z_threshold) (o3d.points cloud))
          []
          (if o3d.has_colors cloud
           then np.select (o3d.colors cloud)
                  (np.col2_gt (o3d.points cloud) z_threshold)
           else [])).
Proof.
  unfold filter_by_height.
  rewrite bool_index_own_mask. simpl rbind.
  destruct (o3d.has_colors cloud) eqn:Hc; [| reflexivity].
  unfold np.bool_index, np.col2_gt.
  rewrite length_map, <- (has_colors_aligned Hc), Nat.eqb_refl.
  reflexivity.
Qed.

End Filter.

(** The colors of a filtered cloud pass a second filtering unchanged. *)
Lemma refilter_colors (keep : Vec3 -> bool) (pts kept : Array3) :
  kept = [] \/ length kept = length (filter keep pts) ->
  (if o3d.has_colors (o3d.mkPointCloud (filter keep pts) [] kept)
   then np.select kept (map keep (filter keep pts))
   else [])
  = kept.
Proof.
  intros Hkept.
  destruct (o3d.has_colors (o3d.mkPointCloud (filter keep pts) [] kept))
    eqn:Hc.
  - apply has_colors_aligned in Hc. cbn [o3d.points o3d.colors] in Hc.
    apply (select_all_kept keep); [exact Hc |].
    intros x Hx. apply (filter_kept keep pts), Hx.
  - destruct Hkept as [-> | Hlen]; [reflexivity |].
    unfold o3d.has_colors in Hc. cbn [o3d.points o3d.colors] in Hc.
    rewrite Hlen, Nat.eqb_refl, andb_true_r in Hc.
    apply negb_false_iff, Nat.eqb_eq in Hc. rewrite Hc in Hlen.
    destruct kept; [reflexivity | discriminate].
Qed.

(* ===================================================================== *)
(** ** Traces and outcomes *)

Section Runs.

Context {A B : Type}.

Lemma outcome_bind (m : M A) (k : A -> M B) :
  outcome (bind m k)
  = match outcome m with
    | Ok a => outcome (k a)
    | Raise e => Raise e
    end.
Proof.
  destruct m as [t [a | e]]; simpl; [| reflexivity].
  destruct (k a); reflexivity.
Qed.

Lemma trace_bind (m : M A) (k : A -> M B) :
  trace (bind m k)
  = match outcome m with
    | Ok a => trace m ++ trace (k a)
    | Raise e => trace m
    end.
Proof.
  destruct m as [t [a | e]]; simpl; [| reflexivity].
  destruct (k a); reflexivity.
Qed.

Lemma bind_ok (t : list Event) (a : A) (k : A -> M B) :
  bind (t, Ok a) k = (t ++ trace (k a), outcome (k a)).
Proof. simpl. destruct (k a); reflexivity. Qed.

Lemma bind_raise (t : list Event) (e : Exception) (k : A -> M B) :
  bind (t, Raise e) k = (t, Raise e).
Proof. reflexivity. Qed.

End Runs.

Section Script.

Variable env : Env.

(** A [try ... except Exception] whose handler only logs never raises. *)
Lemma print_ply_info_returns (file : string) :
  outcome (print_ply_info env file) = Ok tt.
Proof.
  unfold print_ply_info, from_file, call, logging_info, logging_error,
    print, try_except, bind.
  destruct (PyntCloud_from_file env file); reflexivity.
Qed.

Lemma visualize_point_cloud_returns (file : string) (t : float64) :
  outcome (visualize_point_cloud env file t) = Ok tt.
Proof.
  unfold visualize_point_cloud, read_point_cloud, draw_geometries, call,
    logging_info, logging_error, lift, try_except, bind.
  destruct (o3d_read_point_cloud env file) as [cloud | e]; [| reflexivity].
  rewrite filter_by_height_eq.
  match goal with
  | |- context [o3d_draw_geometries env ?g] =>
      destruct (o3d_draw_geometries env g) as [[] | e]
  end; reflexivity.
Qed.

(** What the visualization shows of a file that open3d reads. *)
Lemma visualize_point_cloud_shows (file : string) (t : float64) cloud :
  o3d_read_point_cloud env file = Ok cloud ->
  exists out,
    filter_by_height cloud t = Ok out
    /\ In (DrawGeometries [out]) (trace (visualize_point_cloud env file t)).
Proof.
  intros Hread. eexists. split; [apply filter_by_height_eq |].
  unfold visualize_point_cloud, read_point_cloud, draw_geometries, call,
    logging_info, logging_error, lift, try_except, bind.
  rewrite Hread, filter_by_height_eq.
  match goal with
  | |- context [o3d_draw_geometries env ?g] =>
      destruct (o3d_draw_geometries env g) as [[] | e]
  end; simpl; auto 6.
Qed.

Lemma compare_point_clouds_loaded (file1 file2 : string) cloud1 cloud2 :
  PyntCloud_from_file env file1 = Ok cloud1 ->
  PyntCloud_from_file env file2 = Ok cloud2 ->
  compare_point_clouds env file1 file2
  = ([FromFile file1; FromFile file2]
       ++ trace (compare (xyz_values cloud1) (xyz_values cloud2)),
     outcome (compare (xyz_values cloud1) (xyz_values cloud2))).
Proof.
  intros H1 H2. unfold compare_point_clouds, from_file, call.
  rewrite H1, bind_ok, H2, bind_ok. reflexivity.
Qed.

Lemma compare_point_clouds_load_failure (file1 file2 : string) e :
  PyntCloud_from_file env file1 = Raise e ->
  outcome (compare_point_clouds env file1 file2) = Raise e.
Proof.
  intros H1. unfold compare_point_clouds, from_file, call.
  rewrite H1. reflexivity.
Qed.

Lemma some_file_missing_run (file1 file2 : string) :
  some_file_missing env file1 file2
  = (if os_path_exists env file1
     then [PathExists file1; PathExists file2]
     else [PathExists file1],
     Ok (negb (os_path_exists env file1 && os_path_exists env file2))).
Proof.
  unfold some_file_missing, exists_, call, ret, bind.
  destruct (os_path_exists env file1); reflexivity.
Qed.

(** A loader failure inside [compare_point_clouds] leaves [main] as an
    uncaught exception. *)
Lemma main_load_failure (file1 file2 : string) e :
  os_path_exists env file1 = true ->
  os_path_exists env file2 = true ->
  PyntCloud_from_file env file1 = Raise e ->
  outcome (main env file1 file2) = Raise e.
Proof.
  intros E1 E2 H. unfold main.
  rewrite some_file_missing_run, E1, E2, bind_ok.
  cbn [outcome snd andb negb].
  rewrite !outcome_bind, !print_ply_info_returns.
  rewrite (compare_point_clouds_load_failure _ _ _ H). reflexivity.
Qed.

End Script.

Section Comparison.

Variables points1 points2 : Array3.

Lemma compare_nonempty :
  points1 <> [] -> points2 <> [] ->
  exists min1 max1 min2 max2,
    np.min_axis0 points1 = Ok min1 /\ np.max_axis0 points1 = Ok max1
    /\ np.min_axis0 points2 = Ok min2 /\ np.max_axis0 points2 = Ok max2
    /\ compare points1 points2
       = ([Log INFO [Lit "Point cloud 1 size: "; VNat (length points1)];
           Log INFO [Lit "Point cloud 2 size: "; VNat (length points2)];
           Log INFO [Lit "Point cloud 1 range - min: "; VVec min1;
                     Lit ", max: "; VVec max1];
           Log INFO [Lit "Point cloud 2 range - min: "; VVec min2;
                     Lit ", max: "; VVec max2];
           Log INFO [Lit "Point cloud 1 has invalid points: ";
                     VBool (np.isnan_any points1 || np.isinf_any points1)];
           Log INFO [Lit "Point cloud 2 has invalid points: ";
                     VBool (np.isnan_any points2 || np.isinf_any points2)]],
          Ok tt).
Proof.
  intros N1 N2.
  destruct (reduce_axis0_nonempty "minimum" minimum points1 N1) as [min1 Hmin1].
  destruct (reduce_axis0_nonempty "maximum" maximum points1 N1) as [max1 Hmax1].
  destruct (reduce_axis0_nonempty "minimum" minimum points2 N2) as [min2 Hmin2].
  destruct (reduce_axis0_nonempty "maximum" maximum points2 N2) as [max2 Hmax2].
  exists min1, max1, min2, max2. repeat (split; [assumption |]).
  unfold compare, np.min_axis0, np.max_axis0, lift.
  rewrite Hmin1, Hmax1, Hmin2, Hmax2. reflexivity.
Qed.

(** With an empty array on either side the run stops at [np.min]. *)
Lemma compare_empty :
  points1 = [] \/ points2 = [] ->
  compare points1 points2
  = ([Log INFO [Lit "Point cloud 1 size: "; VNat (length points1)];
      Log INFO [Lit "Point cloud 2 size: "; VNat (length points2)]],
     Raise (ValueError "minimum")).
Proof.
  intros [-> | ->]; [reflexivity |].
  destruct points1 as [|p a]; reflexivity.
Qed.

Lemma points_empty_or_not : points1 = [] \/ points2 = []
                            \/ (points1 <> [] /\ points2 <> []).
Proof.
  destruct points1, points2; auto; right; right; split; discriminate.
Qed.

End Comparison.

(* ===================================================================== *)
(** ** The sample run *)

Example sample_values_are_float64 :
  forallb is_float64 [zero; one; two; neg_one; neg_two; nan; inf; neg_inf]
  = true.
Proof. reflexivity. Qed.

(** Cloud A with z in -2 .. 2 against cloud B with three points at z = 0. *)
Example sample_comparison :
  report (trace (compare Sample.cloudA Sample.cloudB))
  = mkReport (Some 5) (Some 3)
      (Some (Sample.at_z neg_two, Sample.at_z two))
      (Some (Sample.at_z zero, Sample.at_z zero))
      (Some false) (Some false).
Proof. reflexivity. Qed.

Example sample_filter_A :
  filter_by_height (o3d.mkPointCloud Sample.cloudA [] []) zero
  = Ok (o3d.mkPointCloud [Sample.at_z one; Sample.at_z two] [] []).
Proof. reflexivity. Qed.

Example sample_filter_B :
  filter_by_height (o3d.mkPointCloud Sample.cloudB [] []) zero
  = Ok o3d.new.
Proof. reflexivity. Qed.

Example sample_main_completes :
  outcome (main Sample.env_ok Sample.file1 Sample.file2) = Ok tt.
Proof. reflexivity. Qed.

(* ===================================================================== *)
(** ** Height filter *)

(** C1. The filtering step of [visualize_point_cloud] returns a new cloud
    whose positions are exactly the input positions whose z coordinate is
    strictly greater than the threshold, in their original order.  With
    points at z = -1, 0, 1 and threshold 0 only the z = 1 point is kept. *)
Theorem filter_by_height_keeps_points_above :
  (forall cloud z_threshold,
     exists out,
       filter_by_height cloud z_threshold = Ok out
       /\ o3d.points out
          = filter (fun p => SFltb z_threshold (vz p)) (o3d.points cloud))
  /\ filter_by_height Sample.boundary_cloud zero
     = Ok (o3d.mkPointCloud [Sample.at_z one] [] []).
Proof.
  split; [| reflexivity].
  intros cloud z_threshold. eexists. split.
  - apply filter_by_height_eq.
  - reflexivity.
Qed.

(** C2. When the source cloud has colors, the output pairs every kept
    point with the color it had in the source: the colors are selected by
    the mask of the positions, and there are as many colors as points.
    When the source has no colors, neither has the output. *)
Theorem filter_by_height_colors_follow_points
  (cloud : o3d.PointCloud) (z_threshold : float64) :
  exists out,
    filter_by_height cloud z_threshold = Ok out
    /\ (o3d.has_colors cloud = true ->
        o3d.colors out
        = np.select (o3d.colors cloud)
            (np.col2_gt (o3d.points cloud) z_threshold)
        /\ colored_points out
           = filter (fun pc => above z_threshold (fst pc))
               (colored_points cloud)
        /\ length (o3d.points out) = length (o3d.colors out))
    /\ (o3d.has_colors cloud = false -> o3d.colors out = []).
Proof.
  eexists. split; [apply filter_by_height_eq |].
  unfold colored_points; cbn [o3d.points o3d.colors].
  split; intros Hc; rewrite Hc; [| reflexivity].
  pose proof (has_colors_aligned cloud Hc) as Hlen.
  split; [reflexivity |]. split.
  - apply select_companions, Hlen.
  - symmetry. apply select_length, Hlen.
Qed.

Lemma filter_by_height_colors_follow_points_witness :
  (o3d.has_colors Sample.colored_cloud = true
   /\ exists out,
        filter_by_height Sample.colored_cloud zero = Ok out
        /\ colored_points out = [(Sample.at_z one, Sample.blue)])
  /\ (o3d.has_colors Sample.boundary_cloud = false
      /\ exists out,
           filter_by_height Sample.boundary_cloud zero = Ok out
           /\ o3d.colors out = []).
Proof.
  split; (split; [reflexivity |]).
  - destruct (filter_by_height_colors_follow_points Sample.colored_cloud zero)
      as (out & Hout & Hc & _).
    exists out. split; [exact Hout |].
    destruct (Hc eq_refl) as (_ & -> & _). reflexivity.
  - destruct (filter_by_height_colors_follow_points Sample.boundary_cloud zero)
      as (out & Hout & _ & Hn).
    exists out. split; [exact Hout | exact (Hn eq_refl)].
Defined.

(** C7. Filtering an already filtered cloud again with the same threshold
    returns the same cloud. *)
Theorem filter_by_height_idempotent
  (cloud : o3d.PointCloud) (z_threshold : float64) :
  exists out,
    filter_by_height cloud z_threshold = Ok out
    /\ filter_by_height out z_threshold = Ok out.
Proof.
  eexists. split; [apply filter_by_height_eq |].
  rewrite filter_by_height_eq. cbn [o3d.points o3d.colors].
  rewrite filter_again. do 2 f_equal.
  apply (refilter_colors (above z_threshold) (o3d.points cloud)).
  destruct (o3d.has_colors cloud) eqn:Hc; [right | left; reflexivity].
  apply select_length, has_colors_aligned, Hc.
Qed.

(** C8. The filter applied to a cloud without points returns the empty
    cloud, and so does a threshold that no point exceeds; neither raises. *)
Theorem filter_by_height_empty
  (cloud : o3d.PointCloud) (z_threshold : float64) :
  (o3d.points cloud = [] -> filter_by_height cloud z_threshold = Ok o3d.new)
  /\ ((forall p, In p (o3d.points cloud) -> gt (vz p) z_threshold = false) ->
      filter_by_height cloud z_threshold = Ok o3d.new).
Proof.
  assert (Hnone : (forall p, In p (o3d.points cloud) ->
                             above z_threshold p = false) ->
                  filter_by_height cloud z_threshold = Ok o3d.new).
  { intros Hall. rewrite filter_by_height_eq.
    rewrite (filter_none_kept _ _ Hall).
    unfold np.col2_gt. fold (above z_threshold).
    rewrite (select_none_kept (above z_threshold) _ _ Hall).
    destruct (o3d.has_colors cloud); reflexivity. }
  split; [| exact Hnone].
  intros Hempty. apply Hnone. rewrite Hempty. intros p [].
Qed.

Lemma filter_by_height_empty_witness :
  filter_by_height (o3d.mkPointCloud [] [] []) one = Ok o3d.new
  /\ filter_by_height (o3d.mkPointCloud Sample.cloudB [] Sample.cloudB) zero
     = Ok o3d.new.
Proof.
  split.
  - apply (proj1 (filter_by_height_empty (o3d.mkPointCloud [] [] []) one)).
    reflexivity.
  - apply (proj2 (filter_by_height_empty
                    (o3d.mkPointCloud Sample.cloudB [] Sample.cloudB) zero)).
    simpl. intros p [<- | [<- | [<- | []]]]; reflexivity.
Defined.

(* ===================================================================== *)
(** ** Comparison *)

(** C5. The comparison reports as size of each cloud its number of
    points. *)
Theorem compare_reports_sizes (points1 points2 : Array3) :
  size1 (report (trace (compare points1 points2))) = Some (length points1)
  /\ size2 (report (trace (compare points1 points2))) = Some (length points2).
Proof.
  destruct (points_empty_or_not points1 points2) as [E | [E | [N1 N2]]].
  - rewrite compare_empty by auto. split; reflexivity.
  - rewrite compare_empty by auto. split; reflexivity.
  - destruct (compare_nonempty points1 points2 N1 N2)
      as (min1 & max1 & min2 & max2 & _ & _ & _ & _ & ->).
    split; reflexivity.
Qed.

(** C4. Every invalid flag that the comparison reports for a cloud is true
    exactly when some coordinate of some point of that cloud is NaN or
    infinite; both flags are reported when both clouds have points. *)
Theorem compare_invalid_flag (points1 points2 : Array3) :
  (forall b, invalid1 (report (trace (compare points1 points2))) = Some b ->
     (b = true <-> has_invalid_coordinate points1))
  /\ (forall b, invalid2 (report (trace (compare points1 points2))) = Some b ->
        (b = true <-> has_invalid_coordinate points2))
  /\ (points1 <> [] -> points2 <> [] ->
      invalid1 (report (trace (compare points1 points2))) <> None
      /\ invalid2 (report (trace (compare points1 points2))) <> None).
Proof.
  destruct (points_empty_or_not points1 points2) as [E | [E | [N1 N2]]].
  - rewrite compare_empty by auto. cbn.
    repeat split; try discriminate; subst; congruence.
  - rewrite compare_empty by auto. cbn.
    repeat split; try discriminate; subst; congruence.
  - destruct (compare_nonempty points1 points2 N1 N2)
      as (min1 & max1 & min2 & max2 & _ & _ & _ & _ & ->).
    cbn. split; [| split].
    + intros b [= <-]. apply invalid_flag_iff.
    + intros b [= <-]. apply invalid_flag_iff.
    + intros _ _. split; discriminate.
Qed.

Lemma compare_invalid_flag_witness :
  (invalid1 (report (trace (compare Sample.inf_cloud Sample.cloudB)))
   = Some true
   /\ has_invalid_coordinate Sample.inf_cloud)
  /\ (invalid2 (report (trace (compare Sample.inf_cloud Sample.cloudB)))
      = Some false
      /\ ~ has_invalid_coordinate Sample.cloudB)
  /\ invalid1 (report (trace (compare Sample.cloudA Sample.cloudB))) <> None.
Proof.
  pose proof (compare_invalid_flag Sample.inf_cloud Sample.cloudB)
    as (H1 & H2 & _).
  split; [| split].
  - split; [reflexivity |]. apply (H1 true); reflexivity.
  - split; [reflexivity |]. intros Hbad.
    apply (H2 false) in Hbad; [discriminate | reflexivity].
  - apply (compare_invalid_flag Sample.cloudA Sample.cloudB); discriminate.
Defined.

(** C6, as the code has it.  On each axis, the range that the comparison
    reports for a cloud bounds every point of the cloud exactly when no
    point has a NaN on that axis ([np.min] and [np.max] propagate NaN, and
    no comparison with NaN holds); so the reported range bounds every
    point componentwise when the cloud has no NaN coordinate.  Both
    ranges are reported when both clouds have points. *)
Theorem compare_range_bounds_without_nan (points1 points2 : Array3) :
  (forall ext, extent1 (report (trace (compare points1 points2))) = Some ext ->
     (forall ax, axis_bounds ax points1 ext <-> axis_nan_free ax points1)
     /\ (nan_free points1 -> bounds points1 ext))
  /\ (forall ext, extent2 (report (trace (compare points1 points2))) = Some ext ->
        (forall ax, axis_bounds ax points2 ext <-> axis_nan_free ax points2)
        /\ (nan_free points2 -> bounds points2 ext))
  /\ (points1 <> [] -> points2 <> [] ->
      extent1 (report (trace (compare points1 points2))) <> None
      /\ extent2 (report (trace (compare points1 points2))) <> None).
Proof.
  assert (Hext : forall a lo hi,
             np.min_axis0 a = Ok lo -> np.max_axis0 a = Ok hi ->
             (forall ax, axis_bounds ax a (lo, hi) <-> axis_nan_free ax a)
             /\ (nan_free a -> bounds a (lo, hi))).
  { intros a lo hi Hlo Hhi.
    assert (Hax : forall ax, axis_nan_free ax a -> axis_bounds ax a (lo, hi))
      by (intros ax Hn; apply min_max_axis0_bounds; assumption).
    split.
    - intros ax. split; [apply axis_bounds_nan_free | apply Hax].
    - intros Hn. apply bounds_all_axes. intros ax. apply Hax, Hn. }
  destruct (points_empty_or_not points1 points2) as [E | [E | [N1 N2]]].
  - rewrite compare_empty by auto. cbn.
    repeat split; try discriminate; subst; congruence.
  - rewrite compare_empty by auto. cbn.
    repeat split; try discriminate; subst; congruence.
  - destruct (compare_nonempty points1 points2 N1 N2)
      as (min1 & max1 & min2 & max2 & Hmin1 & Hmax1 & Hmin2 & Hmax2 & ->).
    cbn. split; [| split].
    + intros ext [= <-]. apply Hext; assumption.
    + intros ext [= <-]. apply Hext; assumption.
    + intros _ _. split; discriminate.
Qed.

Lemma compare_range_bounds_without_nan_witness :
  exists ext,
    extent1 (report (trace (compare Sample.cloudA Sample.cloudB))) = Some ext
    /\ nan_free Sample.cloudA
    /\ bounds Sample.cloudA ext
    /\ extent2 (report (trace (compare Sample.cloudA Sample.cloudB))) <> None.
Proof.
  assert (Hfree : nan_free Sample.cloudA).
  { intros ax p Hp. simpl in Hp.
    destruct Hp as [<- | [<- | [<- | [<- | [<- | []]]]]];
      destruct ax; reflexivity. }
  eexists. split; [reflexivity |]. split; [exact Hfree |]. split.
  - apply (proj1 (compare_range_bounds_without_nan Sample.cloudA Sample.cloudB));
      [reflexivity | exact Hfree].
  - apply (compare_range_bounds_without_nan Sample.cloudA Sample.cloudB);
      discriminate.
Defined.

(** C6 as stated fails on a cloud with a NaN coordinate: the reported
    minimum and maximum are NaN on that axis and bound no point. *)
Lemma compare_range_nan_not_bounded :
  ~ (forall points1 points2 ext,
       points1 <> [] ->
       extent1 (report (trace (compare points1 points2))) = Some ext ->
       bounds points1 ext).
Proof.
  intros H.
  specialize (H Sample.nan_cloud Sample.cloudB _ ltac:(discriminate) eq_refl).
  destruct (H (Sample.at_z one) (or_introl eq_refl)) as [Hlo _].
  discriminate Hlo.
Qed.

(** C3 fails on the code: with an empty first cloud the comparison logs
    the two sizes (0 and 3), then [np.min] raises [ValueError]; no range
    and no flag is reported, and the exception leaves [main] uncaught. *)
Theorem compare_empty_cloud_raises :
  compare [] Sample.cloudB
  = ([Log INFO [Lit "Point cloud 1 size: "; VNat 0];
      Log INFO [Lit "Point cloud 2 size: "; VNat 3]],
     Raise (ValueError "minimum"))
  /\ extent1 (report (trace (compare [] Sample.cloudB))) = None
  /\ invalid1 (report (trace (compare [] Sample.cloudB))) = None
  /\ outcome (main Sample.env_first_empty Sample.file1 Sample.file2)
     = Raise (ValueError "minimum")
  /\ reaches_visualization
       (trace (main Sample.env_first_empty Sample.file1 Sample.file2))
     = false.
Proof. repeat split; reflexivity. Qed.

(* ===================================================================== *)
(** ** Pipeline *)

(** C9, as the code has it.  When one of the two paths does not exist,
    [main] returns without calling a loader, after logging one error whose
    text is the same whichever path is missing.  The second path is looked
    up only when the first exists. *)
Theorem main_missing_file_generic_error (env : Env) (file1 file2 : string) :
  os_path_exists env file1 = false \/ os_path_exists env file2 = false ->
  main env file1 file2
  = ((if os_path_exists env file1
      then [PathExists file1; PathExists file2]
      else [PathExists file1])
       ++ [Log ERROR [Lit "One or both files do not exist."]],
     Ok tt)
  /\ invokes_loader (trace (main env file1 file2)) = false.
Proof.
  intros Hmissing.
  assert (Hrun : main env file1 file2
                 = ((if os_path_exists env file1
                     then [PathExists file1; PathExists file2]
                     else [PathExists file1])
                      ++ [Log ERROR [Lit "One or both files do not exist."]],
                    Ok tt)).
  { unfold main. rewrite some_file_missing_run, bind_ok.
    replace (os_path_exists env file1 && os_path_exists env file2)
      with false
      by (destruct Hmissing as [-> | ->];
          [reflexivity | rewrite andb_false_r; reflexivity]).
    reflexivity. }
  split; [exact Hrun |].
  rewrite Hrun. destruct (os_path_exists env file1); reflexivity.
Qed.

Lemma main_missing_file_generic_error_witness :
  os_path_exists Sample.env_second_missing Sample.file2 = false
  /\ main Sample.env_second_missing Sample.file1 Sample.file2
     = ([PathExists Sample.file1; PathExists Sample.file2;
         Log ERROR [Lit "One or both files do not exist."]],
        Ok tt).
Proof.
  split; [reflexivity |].
  apply (main_missing_file_generic_error
           Sample.env_second_missing Sample.file1 Sample.file2).
  right; reflexivity.
Defined.

(** C9 as stated fails: with only the second file missing, no logged
    error names the missing path. *)
Lemma main_missing_path_not_named :
  ~ (forall env file1 file2,
       os_path_exists env file1 = false \/ os_path_exists env file2 = false ->
       invokes_loader (trace (main env file1 file2)) = false
       /\ reports_missing env [file1; file2] (trace (main env file1 file2))).
Proof.
  intros H.
  destruct (H Sample.env_second_missing Sample.file1 Sample.file2
              (or_intror eq_refl)) as [_ Hreport].
  destruct (Hreport Sample.file2 (or_intror (or_introl eq_refl)) eq_refl)
    as (msg & Hlogged & Hnamed).
  simpl in Hlogged.
  destruct Hlogged as [Hev | [Hev | [Hev | []]]]; try discriminate Hev.
  injection Hev as <-. vm_compute in Hnamed. discriminate Hnamed.
Qed.

(** C10 fails on the code: with both files present and the first one
    unreadable by pyntcloud, [print_ply_info] logs the failure and goes
    on, but the same failure inside [compare_point_clouds] is not caught:
    [main] ends with the loader's exception and visualizes nothing. *)
Theorem main_propagates_load_failure :
  outcome (print_ply_info Sample.env_first_corrupt Sample.file1) = Ok tt
  /\ outcome (compare_point_clouds Sample.env_first_corrupt
                Sample.file1 Sample.file2)
     = Raise Sample.parse_error
  /\ outcome (main Sample.env_first_corrupt Sample.file1 Sample.file2)
     = Raise Sample.parse_error
  /\ reaches_visualization
       (trace (main Sample.env_first_corrupt Sample.file1 Sample.file2))
     = false.
Proof. repeat split; reflexivity. Qed.

(* ===================================================================== *)
(** ** More on the height filter *)

Section FloatStrictOrder.

Local Open Scope Z_scope.

Local Ltac strict_cases :=
  unfold le, lt, gt, SFleb, SFltb, SFcompare;
  repeat match goal with
  | x : float64 |- _ => destruct x as [[|]|[|]| |[|] ? ?]
  end;
  simpl; intros; try reflexivity; try discriminate;
  change (Pos.compare_cont Eq) with Pos.compare in *;
  repeat match goal with
  | H : context [Z.compare ?a ?b] |- _ => destruct (Z.compare_spec a b)
  | |- context [Z.compare ?a ?b] => destruct (Z.compare_spec a b)
  | H : context [Pos.compare ?a ?b] |- _ => destruct (Pos.compare_spec a b)
  | |- context [Pos.compare ?a ?b] => destruct (Pos.compare_spec a b)
  end;
  simpl in *; try reflexivity; try discriminate; try lia.

Lemma le_gt_trans (a b c : float64) :
  le a b = true -> gt c b = true -> gt c a = true.
Proof. strict_cases. Qed.

Lemma gt_not_nan (a b : float64) :
  gt a b = true -> isnan a = false /\ isnan b = false.
Proof. strict_cases; split; reflexivity. Qed.

Lemma gt_inf (a : float64) : gt a inf = false.
Proof. strict_cases. Qed.

End FloatStrictOrder.

Section MasksTwice.

Context {A B : Type}.
Variables f g : A -> bool.

Lemma filter_both (a : list A) :
  filter g (filter f a) = filter (fun x => f x && g x) a.
Proof.
  induction a as [|x a IH]; simpl; [reflexivity |].
  destruct (f x); simpl; [destruct (g x) |]; rewrite IH; reflexivity.
Qed.

Lemma select_both (a : list A) :
  forall k : list B,
    length k = length a ->
    np.select (np.select k (map f a)) (map g (filter f a))
    = np.select k (map (fun x => f x && g x) a).
Proof.
  induction a as [|x a IH]; intros [|c k] Hlen; simpl in *;
    try discriminate; try reflexivity.
  injection Hlen as Hlen.
  destruct (f x); simpl; [destruct (g x) |]; rewrite IH by exact Hlen;
    reflexivity.
Qed.

Lemma filter_empty_none (a : list A) :
  filter f a = [] -> forall x, In x a -> f x = false.
Proof.
  intros Hnil x Hx. destruct (f x) eqn:E; [| reflexivity].
  assert (Hin : In x (filter f a)) by (apply filter_In; auto).
  rewrite Hnil in Hin. destruct Hin.
Qed.

End MasksTwice.

(** Two passes of the filter keep the points above both thresholds, and
    the colors that go with them. *)
Lemma filter_by_height_twice_eq (cloud : o3d.PointCloud) (t1 t2 : float64) :
  rbind (filter_by_height cloud t1) (fun out => filter_by_height out t2)
  = Ok (o3d.mkPointCloud
          (filter (fun p => above t1 p && above t2 p) (o3d.points cloud))
          []
          (if o3d.has_colors cloud
           then np.select (o3d.colors cloud)
                  (map (fun p => above t1 p && above t2 p) (o3d.points cloud))
           else [])).
Proof.
  rewrite filter_by_height_eq. simpl rbind.
  rewrite filter_by_height_eq. cbn [o3d.points o3d.colors].
  rewrite filter_both. do 2 f_equal.
  set (pts := o3d.points cloud).
  destruct (o3d.has_colors cloud) eqn:Hc.
  - pose proof (has_colors_aligned cloud Hc) as Hlen. fold pts in Hlen.
    match goal with
    | |- (if ?b then _ else _) = _ => destruct b eqn:Hc'
    end.
    + apply (select_both (above t1) (above t2)), Hlen.
    + unfold o3d.has_colors in Hc'. cbn [o3d.points o3d.colors] in Hc'.
      unfold np.col2_gt in Hc'. fold (above t1) in Hc'.
      rewrite (select_length (above t1) pts _ Hlen), Nat.eqb_refl,
        andb_true_r in Hc'.
      apply negb_false_iff, Nat.eqb_eq, length_zero_iff_nil in Hc'.
      symmetry. apply (select_none_kept (fun p => above t1 p && above t2 p)).
      intros x Hx. rewrite (filter_empty_none (above t1) pts Hc' x Hx).
      reflexivity.
  - match goal with
    | |- (if ?b then _ else _) = _ => destruct b eqn:Hc'
    end; [| reflexivity].
    apply has_colors_aligned in Hc'. cbn [o3d.points o3d.colors] in Hc'.
    unfold o3d.has_colors in Hc'. 
    destruct (filter (above t1) pts); [reflexivity | discriminate].
Qed.

(** X1. Filtering with a threshold and then with a threshold at least as
    large gives the cloud that the larger threshold gives alone, colors
    included. *)
Theorem filter_by_height_larger_threshold_absorbs
  (cloud : o3d.PointCloud) (t1 t2 : float64) :
  le t1 t2 = true ->
  rbind (filter_by_height cloud t1) (fun out => filter_by_height out t2)
  = filter_by_height cloud t2.
Proof.
  intros Hle. rewrite filter_by_height_twice_eq, filter_by_height_eq.
  assert (Habs : forall p, above t1 p && above t2 p = above t2 p).
  { intros p. destruct (above t2 p) eqn:E2; [| apply andb_false_r].
    unfold above in *. rewrite (le_gt_trans _ _ _ Hle E2). reflexivity. }
  unfold np.col2_gt. fold (above t2).
  rewrite (filter_ext _ _ Habs), (map_ext _ _ Habs). reflexivity.
Qed.

Lemma filter_by_height_larger_threshold_absorbs_witness :
  le zero one = true
  /\ rbind (filter_by_height Scenario.four_colored zero)
       (fun out => filter_by_height out one)
     = Ok (o3d.mkPointCloud [Sample.at_z two] [] [Sample.red]).
Proof.
  split; [reflexivity |].
  rewrite (filter_by_height_larger_threshold_absorbs
             Scenario.four_colored zero one); reflexivity.
Defined.

(** X2. Two passes of the filter commute: the order of the two thresholds
    does not matter for the resulting cloud. *)
Theorem filter_by_height_passes_commute
  (cloud : o3d.PointCloud) (t1 t2 : float64) :
  rbind (filter_by_height cloud t1) (fun out => filter_by_height out t2)
  = rbind (filter_by_height cloud t2) (fun out => filter_by_height out t1).
Proof.
  rewrite !filter_by_height_twice_eq.
  assert (Hcomm : forall p,
             above t1 p && above t2 p = above t2 p && above t1 p)
    by (intros p; apply andb_comm).
  rewrite (filter_ext _ _ Hcomm), (map_ext _ _ Hcomm). reflexivity.
Qed.

(** X3. The cloud built by the filter never has normals and never has
    more points than the source; it has colors (in open3d's sense) exactly
    when the source has colors and at least one point is kept. *)
Theorem filter_by_height_output_shape
  (cloud : o3d.PointCloud) (z_threshold : float64) :
  exists out,
    filter_by_height cloud z_threshold = Ok out
    /\ o3d.normals out = []
    /\ length (o3d.points out) <= length (o3d.points cloud)
    /\ o3d.has_colors out
       = o3d.has_colors cloud && negb (Nat.eqb (length (o3d.points out)) 0).
Proof.
  eexists. split; [apply filter_by_height_eq |].
  cbn [o3d.points o3d.normals o3d.colors].
  split; [reflexivity |]. split; [apply filter_length_le |].
  unfold o3d.has_colors at 1. cbn [o3d.points o3d.colors].
  destruct (o3d.has_colors cloud) eqn:Hc.
  - unfold np.col2_gt. fold (above z_threshold).
    rewrite (select_length (above z_threshold) _ _
               (has_colors_aligned cloud Hc)), Nat.eqb_refl.
    rewrite andb_true_r. reflexivity.
  - simpl length at 2.
    destruct (filter (above z_threshold) (o3d.points cloud)); reflexivity.
Qed.

(** X4. A NaN threshold, like a threshold of plus infinity, keeps no point
    at all, and for every threshold no kept point has a NaN height. *)
Theorem filter_by_height_nan_heights
  (cloud : o3d.PointCloud) (z_threshold : float64) :
  (isnan z_threshold = true ->
   filter_by_height cloud z_threshold = Ok o3d.new)
  /\ filter_by_height cloud inf = Ok o3d.new
  /\ (forall out p,
        filter_by_height cloud z_threshold = Ok out ->
        In p (o3d.points out) -> isnan (vz p) = false).
Proof.
  assert (Hnone : forall t,
             (forall p, In p (o3d.points cloud) -> above t p = false) ->
             filter_by_height cloud t = Ok o3d.new).
  { intros t Hall. rewrite filter_by_height_eq.
    rewrite (filter_none_kept _ _ Hall).
    unfold np.col2_gt. fold (above t).
    rewrite (select_none_kept (above t) _ _ Hall).
    destruct (o3d.has_colors cloud); reflexivity. }
  split; [| split].
  - intros Hnan. apply Hnone. intros p _. unfold above.
    destruct (gt (vz p) z_threshold) eqn:E; [| reflexivity].
    apply gt_not_nan in E as [_ E]. congruence.
  - apply Hnone. intros p _. apply gt_inf.
  - intros out p Hout Hp. rewrite filter_by_height_eq in Hout.
    injection Hout as <-. cbn [o3d.points] in Hp.
    apply filter_In in Hp as [_ Hp]. apply gt_not_nan in Hp as [Hp _].
    exact Hp.
Qed.

Lemma filter_by_height_nan_heights_witness :
  filter_by_height Sample.colored_cloud nan = Ok o3d.new
  /\ isnan (vz (Sample.at_z one)) = false.
Proof.
  split.
  - apply (proj1 (filter_by_height_nan_heights Sample.colored_cloud nan)).
    reflexivity.
  - apply (proj2 (proj2 (filter_by_height_nan_heights
                           Sample.colored_cloud zero))
             (o3d.mkPointCloud [Sample.at_z one] [] [Sample.blue]));
      [reflexivity | left; reflexivity].
Defined.

(* ===================================================================== *)
(** ** More on the comparison *)

Section Extents.

Lemma isnan_is_nan (a : float64) : isnan a = true -> a = nan.
Proof. destruct a; try discriminate; reflexivity. Qed.

Lemma minimum_picks (a b : float64) : minimum a b = a \/ minimum a b = b.
Proof. unfold minimum. destruct (le a b || isnan a); auto. Qed.

Lemma maximum_picks (a b : float64) : maximum a b = a \/ maximum a b = b.
Proof. unfold maximum. destruct (le b a || isnan a); auto. Qed.

Lemma maximum_nan_l (b : float64) : maximum nan b = nan.
Proof. unfold maximum. rewrite orb_true_r. reflexivity. Qed.

Lemma maximum_nan_r (a : float64) : maximum a nan = nan.
Proof. destruct a as [[|]|[|]| |[|] ? ?]; reflexivity. Qed.

Variable f : float64 -> float64 -> float64.
Hypothesis f_picks : forall a b, f a b = a \/ f a b = b.
Hypothesis f_nan_l : forall b, f nan b = nan.
Hypothesis f_nan_r : forall a, f a nan = nan.

(** A fold of a picking operation returns one of the folded values. *)
Lemma fold_picks (rest : list float64) :
  forall acc, In (fold_left f rest acc) (acc :: rest).
Proof.
  induction rest as [|y rest IH]; intros acc; simpl; [auto |].
  destruct (IH (f acc y)) as [H | H]; [| right; right; exact H].
  rewrite <- H.
  destruct (f_picks acc y) as [E | E]; rewrite E; [left | right; left];
    reflexivity.
Qed.

(** A NaN met anywhere stays to the end of the fold. *)
Lemma fold_keeps_nan (rest : list float64) :
  forall acc,
    isnan acc = true \/ (exists x, In x rest /\ isnan x = true) ->
    isnan (fold_left f rest acc) = true.
Proof.
  induction rest as [|y rest IH]; intros acc Hnan; simpl.
  - destruct Hnan as [H | (x & [] & _)]. exact H.
  - apply IH. destruct Hnan as [H | (x & [<- | Hx] & H)].
    + left. rewrite (isnan_is_nan _ H), f_nan_l. reflexivity.
    + left. rewrite (isnan_is_nan _ H), f_nan_r. reflexivity.
    + right. exists x. auto.
Qed.

(** One column of a non-empty array, reduced. *)
Lemma column_attained (proj : Vec3 -> float64) (p : Vec3) (a : Array3) :
  exists q, In q (p :: a)
            /\ fold_left f (map proj a) (proj p) = proj q.
Proof.
  destruct (fold_picks (map proj a) (proj p)) as [H | H].
  - exists p. split; [left; reflexivity | symmetry; exact H].
  - apply in_map_iff in H as (q & Hq & Hin).
    exists q. split; [right; exact Hin | symmetry; exact Hq].
Qed.

Lemma column_nan (proj : Vec3 -> float64) (p : Vec3) (a : Array3) :
  isnan (fold_left f (map proj a) (proj p)) = true
  <-> exists q, In q (p :: a) /\ isnan (proj q) = true.
Proof.
  split.
  - intros H. destruct (column_attained proj p a) as (q & Hq & E).
    exists q. split; [exact Hq | rewrite <- E; exact H].
  - intros (q & [<- | Hq] & H); apply fold_keeps_nan; [left; exact H |].
    right. exists (proj q). split; [apply in_map; exact Hq | exact H].
Qed.

End Extents.

Lemma reduce_axis0_coord name f (p : Vec3) (a : Array3) (v : Vec3) (ax : Axis) :
  np.reduce_axis0 name f (p :: a) = Ok v ->
  coord ax v
  = fold_left f (map (coord ax) a) (coord ax p).
Proof. intros [= <-]. destruct ax; reflexivity. Qed.

(** The reported minimum and maximum are coordinates of points of the
    array, and are NaN exactly on the axes where some point is. *)
Lemma min_max_axis0_attained (a : Array3) (lo hi : Vec3) (ax : Axis) :
  np.min_axis0 a = Ok lo -> np.max_axis0 a = Ok hi ->
  (exists p, In p a /\ coord ax lo = coord ax p)
  /\ (exists q, In q a /\ coord ax hi = coord ax q).
Proof.
  intros Hlo Hhi. destruct a as [|p a]; [discriminate |].
  rewrite (reduce_axis0_coord "minimum" minimum _ _ _ ax Hlo),
    (reduce_axis0_coord "maximum" maximum _ _ _ ax Hhi).
  split.
  - destruct (column_attained minimum minimum_picks (coord ax) p a)
      as (q & Hq & E); eauto.
  - destruct (column_attained maximum maximum_picks (coord ax) p a)
      as (q & Hq & E); eauto.
Qed.

Lemma min_max_axis0_nan (a : Array3) (lo hi : Vec3) (ax : Axis) :
  np.min_axis0 a = Ok lo -> np.max_axis0 a = Ok hi ->
  (isnan (coord ax lo) = true
   <-> exists p, In p a /\ isnan (coord ax p) = true)
  /\ (isnan (coord ax hi) = true
      <-> exists p, In p a /\ isnan (coord ax p) = true).
Proof.
  intros Hlo Hhi. destruct a as [|p a]; [discriminate |].
  rewrite (reduce_axis0_coord "minimum" minimum _ _ _ ax Hlo),
    (reduce_axis0_coord "maximum" maximum _ _ _ ax Hhi).
  split.
  - apply (column_nan minimum minimum_picks minimum_nan_l minimum_nan_r).
  - apply (column_nan maximum maximum_picks maximum_nan_l maximum_nan_r).
Qed.

Lemma any_false_finite (a : Array3) :
  np.isnan_any a || np.isinf_any a = false ->
  forall p ax, In p a -> isfinite (coord ax p) = true.
Proof.
  intros H p ax Hp. apply orb_false_iff in H as [Hn Hi].
  unfold np.isnan_any, np.isinf_any in *.
  destruct (isfinite (coord ax p)) eqn:E; [reflexivity | exfalso].
  unfold isfinite in E. apply andb_false_iff in E.
  destruct E as [E | E]; apply negb_false_iff in E.
  - assert (Hex : existsb
                    (fun p => isnan (vx p) || isnan (vy p) || isnan (vz p)) a
                  = true).
    { apply existsb_exists. exists p. split; [exact Hp |].
      destruct ax; simpl in E; rewrite E; rewrite ?orb_true_r; reflexivity. }
    congruence.
  - assert (Hex : existsb
                    (fun p => isinf (vx p) || isinf (vy p) || isinf (vz p)) a
                  = true).
    { apply existsb_exists. exists p. split; [exact Hp |].
      destruct ax; simpl in E; rewrite E; rewrite ?orb_true_r; reflexivity. }
    congruence.
Qed.

(** The two ways a comparison can go, with what the log then holds. *)
Lemma compare_report_cases (points1 points2 : Array3) :
  ((points1 = [] \/ points2 = [])
   /\ outcome (compare points1 points2) = Raise (ValueError "minimum")
   /\ report (trace (compare points1 points2))
      = mkReport (Some (length points1)) (Some (length points2))
          None None None None)
  \/ (exists min1 max1 min2 max2,
        points1 <> [] /\ points2 <> []
        /\ np.min_axis0 points1 = Ok min1 /\ np.max_axis0 points1 = Ok max1
        /\ np.min_axis0 points2 = Ok min2 /\ np.max_axis0 points2 = Ok max2
        /\ outcome (compare points1 points2) = Ok tt
        /\ report (trace (compare points1 points2))
           = mkReport (Some (length points1)) (Some (length points2))
               (Some (min1, max1)) (Some (min2, max2))
               (Some (np.isnan_any points1 || np.isinf_any points1))
               (Some (np.isnan_any points2 || np.isinf_any points2))).
Proof.
  destruct (points_empty_or_not points1 points2) as [E | [E | [N1 N2]]].
  - left. rewrite compare_empty by auto. auto.
  - left. rewrite compare_empty by auto. auto.
  - right.
    destruct (compare_nonempty points1 points2 N1 N2)
      as (min1 & max1 & min2 & max2 & Hmin1 & Hmax1 & Hmin2 & Hmax2 & ->).
    exists min1, max1, min2, max2. repeat (split; [assumption |]).
    split; reflexivity.
Qed.

(** X5. The comparison completes exactly when both clouds have at least
    one point.  Otherwise it raises the [ValueError] of [np.min] after
    logging the two sizes, and reports neither range nor invalid flag. *)
Theorem compare_completes_iff_nonempty (points1 points2 : Array3) :
  (outcome (compare points1 points2) = Ok tt
   <-> points1 <> [] /\ points2 <> [])
  /\ (points1 = [] \/ points2 = [] ->
      compare points1 points2
      = ([Log INFO [Lit "Point cloud 1 size: "; VNat (length points1)];
          Log INFO [Lit "Point cloud 2 size: "; VNat (length points2)]],
         Raise (ValueError "minimum"))).
Proof.
  split; [| apply compare_empty].
  destruct (compare_report_cases points1 points2)
    as [(E & Hout & _) | (? & ? & ? & ? & N1 & N2 & _ & _ & _ & _ & Hout & _)];
    rewrite Hout; split; auto; try discriminate.
  intros [N1 N2]. destruct E; contradiction.
Qed.

Lemma compare_completes_iff_nonempty_witness :
  outcome (compare Sample.cloudA Sample.cloudB) = Ok tt
  /\ compare Sample.cloudA []
     = ([Log INFO [Lit "Point cloud 1 size: "; VNat 5];
         Log INFO [Lit "Point cloud 2 size: "; VNat 0]],
        Raise (ValueError "minimum")).
Proof.
  split.
  - apply (proj1 (compare_completes_iff_nonempty Sample.cloudA Sample.cloudB)).
    split; discriminate.
  - apply (proj2 (compare_completes_iff_nonempty Sample.cloudA [])).
    right; reflexivity.
Defined.

(** X6. Exchanging the two clouds exchanges the two halves of the report:
    what is reported about a cloud does not depend on its position. *)
Theorem compare_swapped_clouds (points1 points2 : Array3) :
  report (trace (compare points2 points1))
  = swap_report (report (trace (compare points1 points2))).
Proof.
  destruct (compare_report_cases points1 points2)
    as [(E & _ & ->) | (a1 & b1 & a2 & b2 & N1 & N2 & Ha1 & Hb1 & Ha2 & Hb2
                        & _ & ->)].
  - rewrite compare_empty by tauto. reflexivity.
  - destruct (compare_report_cases points2 points1)
      as [([E | E] & _) | (c2 & d2 & c1 & d1 & _ & _ & Hc2 & Hd2 & Hc1 & Hd1
                          & _ & ->)];
      try contradiction.
    unfold swap_report; cbn. congruence.
Qed.

(** X7. On every axis the reported minimum and the reported maximum of a
    cloud are the coordinates of points of that cloud. *)
Theorem compare_range_attained (points1 points2 : Array3) :
  (forall ext ax,
     extent1 (report (trace (compare points1 points2))) = Some ext ->
     (exists p, In p points1 /\ coord ax (fst ext) = coord ax p)
     /\ (exists q, In q points1 /\ coord ax (snd ext) = coord ax q))
  /\ (forall ext ax,
        extent2 (report (trace (compare points1 points2))) = Some ext ->
        (exists p, In p points2 /\ coord ax (fst ext) = coord ax p)
        /\ (exists q, In q points2 /\ coord ax (snd ext) = coord ax q)).
Proof.
  destruct (compare_report_cases points1 points2)
    as [(E & _ & ->) | (a1 & b1 & a2 & b2 & N1 & N2 & Ha1 & Hb1 & Ha2 & Hb2
                        & _ & ->)];
    cbn; split; intros ext ax [= <-];
    apply min_max_axis0_attained; assumption.
Qed.

Lemma compare_range_attained_witness :
  exists p,
    In p Sample.cloudA
    /\ coord AxisZ
         (fst (Sample.at_z neg_two, Sample.at_z two)) = coord AxisZ p.
Proof.
  apply (proj1 (compare_range_attained Sample.cloudA Sample.cloudB)
           (Sample.at_z neg_two, Sample.at_z two) AxisZ).
  reflexivity.
Defined.

(** X8. On every axis the reported minimum of a cloud is NaN exactly when
    some point of the cloud has a NaN on that axis, and so is the reported
    maximum. *)
Theorem compare_range_nan_iff (points1 points2 : Array3) :
  (forall ext ax,
     extent1 (report (trace (compare points1 points2))) = Some ext ->
     (isnan (coord ax (fst ext)) = true
      <-> exists p, In p points1 /\ isnan (coord ax p) = true)
     /\ (isnan (coord ax (snd ext)) = true
         <-> exists p, In p points1 /\ isnan (coord ax p) = true))
  /\ (forall ext ax,
        extent2 (report (trace (compare points1 points2))) = Some ext ->
        (isnan (coord ax (fst ext)) = true
         <-> exists p, In p points2 /\ isnan (coord ax p) = true)
        /\ (isnan (coord ax (snd ext)) = true
            <-> exists p, In p points2 /\ isnan (coord ax p) = true)).
Proof.
  destruct (compare_report_cases points1 points2)
    as [(E & _ & ->) | (a1 & b1 & a2 & b2 & N1 & N2 & Ha1 & Hb1 & Ha2 & Hb2
                        & _ & ->)];
    cbn; split; intros ext ax [= <-];
    apply min_max_axis0_nan; assumption.
Qed.

Lemma compare_range_nan_iff_witness :
  exists ext,
    extent1 (report (trace (compare Sample.nan_cloud Sample.cloudB)))
    = Some ext
    /\ isnan (coord AxisX (fst ext)) = true
    /\ isnan (coord AxisX (snd ext)) = true
    /\ exists p, In p Sample.nan_cloud /\ isnan (coord AxisX p) = true.
Proof.
  eexists. split; [reflexivity |]. split; [reflexivity |].
  split; [reflexivity |].
  eapply (proj1 (compare_range_nan_iff Sample.nan_cloud Sample.cloudB));
    reflexivity.
Defined.

(** X9. When the comparison reports that a cloud has no invalid points,
    it also reports a range for it; that range bounds every point of the
    cloud componentwise, and all its six bounds are finite numbers. *)
Theorem compare_valid_cloud_range (points1 points2 : Array3) :
  (invalid1 (report (trace (compare points1 points2))) = Some false ->
   exists ext,
     extent1 (report (trace (compare points1 points2))) = Some ext
     /\ bounds points1 ext
     /\ forall ax, isfinite (coord ax (fst ext)) = true
                   /\ isfinite (coord ax (snd ext)) = true)
  /\ (invalid2 (report (trace (compare points1 points2))) = Some false ->
      exists ext,
        extent2 (report (trace (compare points1 points2))) = Some ext
        /\ bounds points2 ext
        /\ forall ax, isfinite (coord ax (fst ext)) = true
                      /\ isfinite (coord ax (snd ext)) = true).
Proof.
  assert (Hvalid : forall a lo hi,
             np.min_axis0 a = Ok lo -> np.max_axis0 a = Ok hi ->
             np.isnan_any a || np.isinf_any a = false ->
             bounds a (lo, hi)
             /\ forall ax, isfinite (coord ax lo) = true
                           /\ isfinite (coord ax hi) = true).
  { intros a lo hi Hlo Hhi Hok.
    pose proof (any_false_finite a Hok) as Hfin. split.
    - apply bounds_all_axes. intros ax.
      apply min_max_axis0_bounds; try assumption.
      intros p Hp. specialize (Hfin p ax Hp).
      unfold isfinite in Hfin. apply andb_true_iff in Hfin as [Hfin _].
      apply negb_true_iff in Hfin. exact Hfin.
    - intros ax.
      destruct (min_max_axis0_attained a lo hi ax Hlo Hhi)
        as ((p & Hp & ->) & (q & Hq & ->)).
      split; apply Hfin; assumption. }
  destruct (compare_report_cases points1 points2)
    as [(E & _ & ->) | (a1 & b1 & a2 & b2 & N1 & N2 & Ha1 & Hb1 & Ha2 & Hb2
                        & _ & ->)];
    cbn; split; intros [= Hok]; eexists; (split; [reflexivity |]);
    apply Hvalid; assumption.
Qed.

Lemma compare_valid_cloud_range_witness :
  exists ext,
    extent1 (report (trace (compare Sample.cloudA Sample.cloudB))) = Some ext
    /\ bounds Sample.cloudA ext.
Proof.
  destruct (proj1 (compare_valid_cloud_range Sample.cloudA Sample.cloudB)
              eq_refl) as (ext & Hext & Hb & _).
  exists ext. split; assumption.
Defined.

(* ===================================================================== *)
(** ** More on the pipeline *)

Lemma bind_run {A B} (m : M A) (k : A -> M B) :
  bind m k
  = match outcome m with
    | Ok a => (trace m ++ trace (k a), outcome (k a))
    | Raise e => (trace m, Raise e)
    end.
Proof.
  destruct m as [t [a | e]]; simpl; [| reflexivity].
  destruct (k a); reflexivity.
Qed.

Lemma loads_app (t1 t2 : list Event) : loads (t1 ++ t2) = loads t1 ++ loads t2.
Proof. apply filter_app. Qed.

Lemma reaches_visualization_app (t1 t2 : list Event) :
  reaches_visualization (t1 ++ t2)
  = reaches_visualization t1 || reaches_visualization t2.
Proof. apply existsb_app. Qed.

Section Stages.

Variable env : Env.

Lemma print_ply_info_failed (file : string) e :
  PyntCloud_from_file env file = Raise e ->
  print_ply_info env file
  = ([Log INFO [Lit "Reading file: "; VStr file];
      FromFile file;
      Log ERROR [Lit "Error reading "; VStr file; Lit ": "; VExc e]],
     Ok tt).
Proof.
  intros H. unfold print_ply_info, from_file, call, logging_info,
    logging_error, try_except, bind.
  rewrite H. reflexivity.
Qed.

Lemma print_ply_info_loaded (file : string) cloud :
  PyntCloud_from_file env file = Ok cloud ->
  print_ply_info env file
  = ([Log INFO [Lit "Reading file: "; VStr file];
      FromFile file;
      Log INFO [Lit "PLY file header information:"];
      Stdout (PHead (firstn 5 (xyz_values cloud)));
      Log INFO [Lit "Columns in the point cloud:"];
      Stdout PColumns;
      Log INFO [Lit "All point cloud data:"];
      Stdout (PFrame (xyz_values cloud));
      Log INFO [Lit "Vertex coordinates (x, y, z):"];
      Stdout (PValues (xyz_values cloud));
      Log INFO [Lit "Point cloud statistics:"];
      Stdout (PDescribe (xyz_values cloud))],
     Ok tt).
Proof.
  intros H. unfold print_ply_info, from_file, call, logging_info,
    logging_error, print, try_except, bind.
  rewrite H. reflexivity.
Qed.

Lemma print_ply_info_loads (file : string) :
  loads (trace (print_ply_info env file)) = [FromFile file]
  /\ reaches_visualization (trace (print_ply_info env file)) = false.
Proof.
  destruct (PyntCloud_from_file env file) as [cloud | e] eqn:H.
  - rewrite (print_ply_info_loaded file cloud H). split; reflexivity.
  - rewrite (print_ply_info_failed file e H). split; reflexivity.
Qed.

Lemma visualize_point_cloud_unreadable (file : string) (t : float64) e :
  o3d_read_point_cloud env file = Raise e ->
  visualize_point_cloud env file t
  = ([ReadPointCloud file;
      Log ERROR [Lit "Error visualizing "; VStr file; Lit ": "; VExc e]],
     Ok tt).
Proof.
  intros H. unfold visualize_point_cloud, read_point_cloud, call,
    logging_error, try_except, bind.
  rewrite H. reflexivity.
Qed.

Lemma visualize_point_cloud_read (file : string) (t : float64) cloud out :
  o3d_read_point_cloud env file = Ok cloud ->
  filter_by_height cloud t = Ok out ->
  visualize_point_cloud env file t
  = ([ReadPointCloud file;
      visualizing_line file t;
      counts_line (length (o3d.points cloud)) (length (o3d.points out));
      DrawGeometries [out]]
       ++ match o3d_draw_geometries env [out] with
          | Ok _ => []
          | Raise e =>
              [Log ERROR [Lit "Error visualizing "; VStr file; Lit ": ";
                          VExc e]]
          end,
     Ok tt).
Proof.
  intros Hread Hout.
  unfold visualize_point_cloud, read_point_cloud, draw_geometries, call,
    logging_info, logging_error, lift, try_except, bind.
  rewrite Hread, Hout.
  destruct (o3d_draw_geometries env [out]) as [[] | e]; reflexivity.
Qed.

Lemma visualize_point_cloud_loads (file : string) (t : float64) :
  loads (trace (visualize_point_cloud env file t)) = [ReadPointCloud file]
  /\ reaches_visualization (trace (visualize_point_cloud env file t)) = true.
Proof.
  destruct (o3d_read_point_cloud env file) as [cloud | e] eqn:H.
  - rewrite (visualize_point_cloud_read file t cloud _ H
               (filter_by_height_eq cloud t)).
    destruct (o3d_draw_geometries env _); split; reflexivity.
  - rewrite (visualize_point_cloud_unreadable file t e H).
    split; reflexivity.
Qed.

Lemma compare_quiet (points1 points2 : Array3) :
  loads (trace (compare points1 points2)) = []
  /\ reaches_visualization (trace (compare points1 points2)) = false.
Proof.
  destruct (points_empty_or_not points1 points2) as [E | [E | [N1 N2]]].
  - rewrite compare_empty by auto. split; reflexivity.
  - rewrite compare_empty by auto. split; reflexivity.
  - destruct (compare_nonempty points1 points2 N1 N2)
      as (min1 & max1 & min2 & max2 & _ & _ & _ & _ & ->).
    split; reflexivity.
Qed.

(** [compare_point_clouds] by what the two loads return. *)
Lemma compare_point_clouds_run (file1 file2 : string) :
  compare_point_clouds env file1 file2
  = match PyntCloud_from_file env file1 with
    | Raise e => ([FromFile file1], Raise e)
    | Ok cloud1 =>
        match PyntCloud_from_file env file2 with
        | Raise e => ([FromFile file1; FromFile file2], Raise e)
        | Ok cloud2 =>
            ([FromFile file1; FromFile file2]
               ++ trace (compare (xyz_values cloud1) (xyz_values cloud2)),
             outcome (compare (xyz_values cloud1) (xyz_values cloud2)))
        end
    end.
Proof.
  destruct (PyntCloud_from_file env file1) as [cloud1 | e1] eqn:H1.
  - destruct (PyntCloud_from_file env file2) as [cloud2 | e2] eqn:H2.
    + apply compare_point_clouds_loaded; assumption.
    + unfold compare_point_clouds, from_file, call.
      rewrite H1, bind_ok, H2. reflexivity.
  - unfold compare_point_clouds, from_file, call. rewrite H1. reflexivity.
Qed.

Lemma compare_point_clouds_quiet (file1 file2 : string) :
  reaches_visualization (trace (compare_point_clouds env file1 file2)) = false
  /\ (outcome (compare_point_clouds env file1 file2) = Ok tt ->
      loads (trace (compare_point_clouds env file1 file2))
      = [FromFile file1; FromFile file2]).
Proof.
  rewrite compare_point_clouds_run.
  destruct (PyntCloud_from_file env file1) as [cloud1 | e1];
    [| split; [reflexivity | discriminate]].
  destruct (PyntCloud_from_file env file2) as [cloud2 | e2];
    [| split; [reflexivity | discriminate]].
  destruct (compare_quiet (xyz_values cloud1) (xyz_values cloud2))
    as [Hl Hv].
  cbn [trace outcome fst snd]. split.
  - rewrite reaches_visualization_app, Hv. reflexivity.
  - intros _. rewrite loads_app, Hl. reflexivity.
Qed.

(** [main] stage by stage when both files exist. *)
Lemma main_run (file1 file2 : string) :
  os_path_exists env file1 = true ->
  os_path_exists env file2 = true ->
  main env file1 file2
  = match outcome (compare_point_clouds env file1 file2) with
    | Ok _ =>
        ([PathExists file1; PathExists file2]
           ++ [Log INFO [Lit "Printing PLY file information..."]]
           ++ trace (print_ply_info env file1)
           ++ trace (print_ply_info env file2)
           ++ [Log INFO [Lit "Comparing point clouds..."]]
           ++ trace (compare_point_clouds env file1 file2)
           ++ [Log INFO [Lit "Visualizing point clouds (only z > 5)..."]]
           ++ trace (visualize_point_cloud env file1 default_z_threshold)
           ++ trace (visualize_point_cloud env file2 default_z_threshold),
         Ok tt)
    | Raise e =>
        ([PathExists file1; PathExists file2]
           ++ [Log INFO [Lit "Printing PLY file information..."]]
           ++ trace (print_ply_info env file1)
           ++ trace (print_ply_info env file2)
           ++ [Log INFO [Lit "Comparing point clouds..."]]
           ++ trace (compare_point_clouds env file1 file2),
         Raise e)
    end.
Proof.
  intros E1 E2. unfold main.
  rewrite some_file_missing_run, E1, E2, bind_ok.
  cbn [andb negb].
  rewrite !bind_run, !print_ply_info_returns, !visualize_point_cloud_returns.
  cbn [outcome trace fst snd logging_info call].
  destruct (outcome (compare_point_clouds env file1 file2)) as [[] | e];
    reflexivity.
Qed.

End Stages.

(** X10. [print_ply_info] never raises and calls the loader exactly once.
    When the loader fails it prints nothing and logs one error that names
    the file and carries the exception; when the loader succeeds it logs
    no error. *)
Theorem print_ply_info_catches_loader (env : Env) (file : string) :
  outcome (print_ply_info env file) = Ok tt
  /\ loads (trace (print_ply_info env file)) = [FromFile file]
  /\ (forall e,
        PyntCloud_from_file env file = Raise e ->
        trace (print_ply_info env file)
        = [Log INFO [Lit "Reading file: "; VStr file];
           FromFile file;
           Log ERROR [Lit "Error reading "; VStr file; Lit ": "; VExc e]])
  /\ (forall cloud msg,
        PyntCloud_from_file env file = Ok cloud ->
        ~ In (Log ERROR msg) (trace (print_ply_info env file))).
Proof.
  split; [apply print_ply_info_returns |].
  split; [apply print_ply_info_loads |]. split.
  - intros e H. rewrite (print_ply_info_failed env file e H). reflexivity.
  - intros cloud msg H. rewrite (print_ply_info_loaded env file cloud H).
    simpl. intuition discriminate.
Qed.

Lemma print_ply_info_catches_loader_witness :
  trace (print_ply_info Sample.env_first_corrupt Sample.file1)
  = [Log INFO [Lit "Reading file: "; VStr Sample.file1];
     FromFile Sample.file1;
     Log ERROR [Lit "Error reading "; VStr Sample.file1; Lit ": ";
                VExc Sample.parse_error]]
  /\ ~ In (Log ERROR [])
         (trace (print_ply_info Sample.env_ok Sample.file1)).
Proof.
  split.
  - apply (print_ply_info_catches_loader
             Sample.env_first_corrupt Sample.file1).
    reflexivity.
  - apply (proj2 (proj2 (proj2 (print_ply_info_catches_loader
                                  Sample.env_ok Sample.file1)))
             (mkPyntCloud Sample.cloudA)).
    reflexivity.
Defined.

(** X11. When open3d reads the file, [visualize_point_cloud] logs the
    number of points read and the number kept, which is never larger,
    and calls the viewer exactly once, with the filtered cloud alone; a
    failure of the viewer is logged as one error and not raised. *)
Theorem visualize_point_cloud_draws_filtered
  (env : Env) (file : string) (z_threshold : float64)
  (cloud : o3d.PointCloud) :
  o3d_read_point_cloud env file = Ok cloud ->
  exists out,
    filter_by_height cloud z_threshold = Ok out
    /\ length (o3d.points out) <= length (o3d.points cloud)
    /\ visualize_point_cloud env file z_threshold
       = ([ReadPointCloud file;
           visualizing_line file z_threshold;
           counts_line (length (o3d.points cloud)) (length (o3d.points out));
           DrawGeometries [out]]
            ++ match o3d_draw_geometries env [out] with
               | Ok _ => []
               | Raise e =>
                   [Log ERROR [Lit "Error visualizing "; VStr file; Lit ": ";
                               VExc e]]
               end,
          Ok tt).
Proof.
  intros Hread. eexists. split; [apply filter_by_height_eq |]. split.
  - apply filter_length_le.
  - apply visualize_point_cloud_read; [exact Hread |].
    apply filter_by_height_eq.
Qed.

Lemma visualize_point_cloud_draws_filtered_witness :
  exists out,
    filter_by_height (o3d.mkPointCloud Sample.cloudA [] []) zero = Ok out
    /\ visualize_point_cloud Scenario.env_no_display Sample.file1 zero
       = ([ReadPointCloud Sample.file1;
           visualizing_line Sample.file1 zero;
           counts_line 5 2;
           DrawGeometries [out];
           Log ERROR [Lit "Error visualizing "; VStr Sample.file1; Lit ": ";
                      VExc Scenario.no_display]],
          Ok tt).
Proof.
  destruct (visualize_point_cloud_draws_filtered
              Scenario.env_no_display Sample.file1 zero
              (o3d.mkPointCloud Sample.cloudA [] []) eq_refl)
    as (out & Hout & _ & Hrun).
  exists out. split; [exact Hout |].
  rewrite Hrun. injection Hout as <-. reflexivity.
Defined.



(** X13. [compare_point_clouds] lets a loader failure through unchanged
    and logs nothing before it: when the first file fails the second is
    not even loaded, and when only the second fails both loads are all
    that happened. *)
Theorem compare_point_clouds_loader_failure
  (env : Env) (file1 file2 : string) (e : Exception) :
  (PyntCloud_from_file env file1 = Raise e ->
   compare_point_clouds env file1 file2 = ([FromFile file1], Raise e))
  /\ (forall cloud1,
        PyntCloud_from_file env file1 = Ok cloud1 ->
        PyntCloud_from_file env file2 = Raise e ->
        compare_point_clouds env file1 file2
        = ([FromFile file1; FromFile file2], Raise e)).
Proof.
  split.
  - intros H1. rewrite compare_point_clouds_run, H1. reflexivity.
  - intros cloud1 H1 H2. rewrite compare_point_clouds_run, H1, H2.
    reflexivity.
Qed.

Lemma compare_point_clouds_loader_failure_witness :
  compare_point_clouds Sample.env_first_corrupt Sample.file1 Sample.file2
  = ([FromFile Sample.file1], Raise Sample.parse_error)
  /\ compare_point_clouds Scenario.env_second_corrupt Sample.file1 Sample.file2
     = ([FromFile Sample.file1; FromFile Sample.file2],
        Raise Sample.parse_error).
Proof.
  split.
  - apply (proj1 (compare_point_clouds_loader_failure
                    Sample.env_first_corrupt Sample.file1 Sample.file2
                    Sample.parse_error)).
    reflexivity.
  - apply (proj2 (compare_point_clouds_loader_failure
                    Scenario.env_second_corrupt Sample.file1 Sample.file2
                    Sample.parse_error) (mkPyntCloud Sample.cloudA));
      reflexivity.
Defined.

(** X14. [main] ends exactly as its call of [compare_point_clouds] ends
    when both files exist, and returns normally when one is missing: an
    exception can leave [main] only out of the comparison. *)
Theorem main_outcome (env : Env) (file1 file2 : string) :
  outcome (main env file1 file2)
  = if os_path_exists env file1 && os_path_exists env file2
    then outcome (compare_point_clouds env file1 file2)
    else Ok tt.
Proof.
  destruct (os_path_exists env file1) eqn:E1;
    [destruct (os_path_exists env file2) eqn:E2 |]; cbn [andb].
  - rewrite (main_run env file1 file2 E1 E2).
    destruct (outcome (compare_point_clouds env file1 file2)) as [[] | e];
      reflexivity.
  - unfold main.
    rewrite some_file_missing_run, E1, E2, bind_ok. reflexivity.
  - unfold main.
    rewrite some_file_missing_run, E1, bind_ok. reflexivity.
Qed.

(** X15. When both files exist and pyntcloud loads each of them with at
    least one point, [main] returns normally, whatever the open3d reader
    and viewer do. *)
Theorem main_completes (env : Env) (file1 file2 : string)
  (cloud1 cloud2 : PyntCloud) :
  os_path_exists env file1 = true ->
  os_path_exists env file2 = true ->
  PyntCloud_from_file env file1 = Ok cloud1 ->
  PyntCloud_from_file env file2 = Ok cloud2 ->
  xyz_values cloud1 <> [] ->
  xyz_values cloud2 <> [] ->
  outcome (main env file1 file2) = Ok tt.
Proof.
  intros E1 E2 H1 H2 N1 N2.
  rewrite (main_run env file1 file2 E1 E2).
  rewrite (compare_point_clouds_loaded env file1 file2 _ _ H1 H2).
  destruct (compare_nonempty _ _ N1 N2)
    as (min1 & max1 & min2 & max2 & _ & _ & _ & _ & ->).
  reflexivity.
Qed.

Lemma main_completes_witness :
  outcome (main Scenario.env_no_display Sample.file1 Sample.file2) = Ok tt
  /\ outcome (main Scenario.env_o3d_unreadable Sample.file1 Sample.file2)
     = Ok tt.
Proof.
  split.
  - apply (main_completes Scenario.env_no_display Sample.file1 Sample.file2
             (mkPyntCloud Sample.cloudA) (mkPyntCloud Sample.cloudB));
      try reflexivity; discriminate.
  - apply (main_completes Scenario.env_o3d_unreadable
             Sample.file1 Sample.file2
             (mkPyntCloud Sample.cloudA) (mkPyntCloud Sample.cloudB));
      try reflexivity; discriminate.
Defined.

(** X16. [main] gets as far as reading or showing a cloud with open3d
    exactly when both files exist and the comparison has completed. *)
Theorem main_reaches_visualization_iff (env : Env) (file1 file2 : string) :
  reaches_visualization (trace (main env file1 file2)) = true
  <-> os_path_exists env file1 = true
      /\ os_path_exists env file2 = true
      /\ outcome (compare_point_clouds env file1 file2) = Ok tt.
Proof.
  destruct (os_path_exists env file1) eqn:E1;
    [destruct (os_path_exists env file2) eqn:E2 |].
  - rewrite (main_run env file1 file2 E1 E2).
    destruct (print_ply_info_loads env file1) as [_ P1].
    destruct (print_ply_info_loads env file2) as [_ P2].
    destruct (compare_point_clouds_quiet env file1 file2) as [C _].
    destruct (visualize_point_cloud_loads env file1 default_z_threshold)
      as [_ V1].
    destruct (outcome (compare_point_clouds env file1 file2)) as [[] | e];
      cbn [trace fst];
      rewrite !reaches_visualization_app, ?P1, ?P2, ?C, ?V1;
      cbn; rewrite ?orb_true_r; split; auto; try discriminate.
    intros (_ & _ & H); discriminate H.
  - unfold main. rewrite some_file_missing_run, E1, E2, bind_ok.
    cbn. split; [discriminate | intros (_ & H & _); discriminate H].
  - unfold main. rewrite some_file_missing_run, E1, bind_ok.
    cbn. split; [discriminate | intros (H & _); discriminate H].
Qed.

(** X17. In a run of [main] whose comparison completes, every file is
    loaded three times: pyntcloud loads the first and the second file for
    printing, loads both again for the comparison, and open3d then reads
    the first and the second file, in this order. *)
Theorem main_load_order (env : Env) (file1 file2 : string) :
  os_path_exists env file1 = true ->
  os_path_exists env file2 = true ->
  outcome (compare_point_clouds env file1 file2) = Ok tt ->
  loads (trace (main env file1 file2))
  = [FromFile file1; FromFile file2;
     FromFile file1; FromFile file2;
     ReadPointCloud file1; ReadPointCloud file2].
Proof.
  intros E1 E2 Hok.
  rewrite (main_run env file1 file2 E1 E2), Hok. cbn [trace fst].
  destruct (print_ply_info_loads env file1) as [P1 _].
  destruct (print_ply_info_loads env file2) as [P2 _].
  destruct (compare_point_clouds_quiet env file1 file2) as [_ C].
  destruct (visualize_point_cloud_loads env file1 default_z_threshold)
    as [V1 _].
  destruct (visualize_point_cloud_loads env file2 default_z_threshold)
    as [V2 _].
  rewrite !loads_app, P1, P2, (C Hok), V1, V2. reflexivity.
Qed.

Lemma main_load_order_witness :
  loads (trace (main Sample.env_ok Sample.file1 Sample.file2))
  = [FromFile Sample.file1; FromFile Sample.file2;
     FromFile Sample.file1; FromFile Sample.file2;
     ReadPointCloud Sample.file1; ReadPointCloud Sample.file2].
Proof.
  apply (main_load_order Sample.env_ok Sample.file1 Sample.file2);
    reflexivity.
Defined.

(** X18. [main] shows the points with z above 0, the default threshold,
    although its log announces z > 5: for each of the two files that
    open3d reads, the viewer is called with the cloud filtered at 0. *)
Theorem main_shows_points_above_zero
  (env : Env) (file1 file2 file : string) (cloud : o3d.PointCloud) :
  os_path_exists env file1 = true ->
  os_path_exists env file2 = true ->
  outcome (compare_point_clouds env file1 file2) = Ok tt ->
  file = file1 \/ file = file2 ->
  o3d_read_point_cloud env file = Ok cloud ->
  exists out,
    filter_by_height cloud zero = Ok out
    /\ o3d.points out
       = filter (fun p => SFltb zero (vz p)) (o3d.points cloud)
    /\ In (DrawGeometries [out]) (trace (main env file1 file2))
    /\ In (Log INFO [Lit "Visualizing point clouds (only z > 5)..."])
         (trace (main env file1 file2)).
Proof.
  intros E1 E2 Hok Hfile Hread.
  destruct (visualize_point_cloud_shows env file default_z_threshold
              cloud Hread) as (out & Hout & Hdrawn).
  exists out. split; [exact Hout |]. split.
  - rewrite filter_by_height_eq in Hout. injection Hout as <-. reflexivity.
  - rewrite (main_run env file1 file2 E1 E2), Hok. cbn [trace fst]. split.
    + rewrite !in_app_iff.
      destruct Hfile as [<- | <-]; do 7 right; [left | right]; exact Hdrawn.
    + rewrite !in_app_iff. do 6 right. left. left. reflexivity.
Qed.

Lemma main_shows_points_above_zero_witness :
  In (DrawGeometries
        [o3d.mkPointCloud [Sample.at_z one; Sample.at_z two] [] []])
     (trace (main Sample.env_ok Sample.file1 Sample.file2)).
Proof.
  destruct (main_shows_points_above_zero
              Sample.env_ok Sample.file1 Sample.file2 Sample.file1
              (o3d.mkPointCloud Sample.cloudA [] [])
              eq_refl eq_refl eq_refl (or_introl eq_refl) eq_refl)
    as (out & Hout & _ & Hdrawn & _).
  injection Hout as <-. exact Hdrawn.
Defined.
